(** * LightningKokkosSimulator: a shallow embedding

    The embedding follows
    [runtime/lib/backend/lightning/lightning_kokkos/LightningKokkosSimulator.cpp].
    Every member function of the simulator that the verified properties talk
    about is a state-passing function on the record [Simulator]; a thrown
    [RuntimeException] is the result [Throw message], and the simulator left
    behind by the throw is kept (C++ does not roll back on an exception).

    Numbers: [double] is the kernel's binary64 [float]; qubit counts, wires
    and sizes ([size_t]) are [nat] (a register of [n] qubits stores [2^n]
    amplitudes, so they stay far from the 64-bit range); the places where the
    source computes in 32 bits ([1U << n]) or in a 64-bit [std::bitset] are
    written out on [Z]; program qubit ids ([QubitIdType], signed) are [Z]. *)

From Stdlib Require Import ZArith String List Floats Lia Bool.
From stdpp Require Import base option list gmap strings.

Local Open Scope nat_scope.

(** ** Exceptions and state *)

Inductive outcome (A : Type) : Type :=
| Return (a : A)
| Throw (message : string).
Arguments Return {A} a.
Arguments Throw {A} message.

(** A member function: it reads and writes the object [S] and either returns
    or throws. *)
Definition Run (S A : Type) : Type := S -> outcome A * S.

Definition ret {S A} (a : A) : Run S A := fun s => (Return a, s).

Definition bind {S A B} (m : Run S A) (k : A -> Run S B) : Run S B :=
  fun s =>
    match m s with
    | (Return a, s') => k a s'
    | (Throw msg, s') => (Throw msg, s')
    end.

Notation "'let*' x ':=' m 'in' k" := (bind m (fun x => k))
  (at level 10, x name, m at level 200, k at level 200, only parsing).
Notation "'do' m 'in' k" := (bind m (fun _ => k))
  (at level 10, m at level 200, k at level 200, only parsing).

Definition get {S} : Run S S := fun s => (Return s, s).
Definition put {S} (s : S) : Run S unit := fun _ => (Return tt, s).

(** [RT_FAIL_IF(expression, message)]: throws when [expression] holds. *)
Definition RT_FAIL_IF {S} (expression : bool) (message : string) : Run S unit :=
  fun s => if expression then (Throw message, s) else (Return tt, s).

(** [RT_ASSERT(expression)] is [RT_FAIL_IF(!(expression), "Assertion: " #expression)]. *)
Definition RT_ASSERT {S} (expression : bool) (text : string) : Run S unit :=
  RT_FAIL_IF (negb expression) ("Assertion: " +:+ text).

(** The result of an external call that may throw and does not touch the
    simulator. *)
Definition call {S A} (r : outcome A) : Run S A := fun s => (r, s).

(** ** Data model *)

Definition QubitIdType := Z.
Definition ObsIdType := nat.

(** [Kokkos::complex<double>]: real and imaginary part. *)
Definition complex : Type := float * float.
Definition czero : complex := (0%float, 0%float).
Definition cone : complex := (1%float, 0%float).

(** [StateVectorT] (the PennyLane-Lightning-Kokkos state vector, not part of
    this repository): the number of qubits and the [2^n] amplitudes. *)
Record StateVectorT : Type := mkStateVector {
  sv_num_qubits : nat;
  sv_data : list complex
}.

(** [StateVectorT(num_qubits)]: the basis state [|0...0>]. *)
Definition StateVector_new (num_qubits : nat) : StateVectorT :=
  mkStateVector num_qubits (cone :: replicate (2 ^ num_qubits - 1) czero).

(** [StateVectorT(data, length)]: [log2 length] qubits holding [data]. *)
Definition StateVector_from (data : list complex) (vec_size : nat) : StateVectorT :=
  mkStateVector (Nat.log2 vec_size) data.

(** [enum class MeasurementsT]: the two kinds the simulator records,
    [MeasurementsT::Expval] and [MeasurementsT::Var]. *)
Module MeasurementsT.

Inductive t : Type := Expval | Var.

Definition eqb (a b : t) : bool :=
  match a, b with
  | Expval, Expval | Var, Var => true
  | _, _ => false
  end.

End MeasurementsT.

(** [enum class ObsId]: the named observables; [ObsId::Hermitian] is the one
    the simulator tells apart. *)
Module ObsId.

Inductive t : Type :=
| Identity | PauliX | PauliY | PauliZ | Hadamard | Hermitian.

Definition eqb (a b : t) : bool :=
  match a, b with
  | Identity, Identity | PauliX, PauliX | PauliY, PauliY
  | PauliZ, PauliZ | Hadamard, Hadamard | Hermitian, Hermitian => true
  | _, _ => false
  end.

End ObsId.

(** The two result constants [GLOBAL_RESULT_FALSE_CONST] and
    [GLOBAL_RESULT_TRUE_CONST] behind [Zero()] and [One()]. *)
Inductive Result : Type := Zero | One.

(** *** Qubit manager *)

Module QubitManager.

(** Modelled from the spec: the class [QubitManager] is not among the
    sources.  Section 4.1: program ids are mapped to device wires;
    allocation returns fresh, never-before-live ids (here: the ids are drawn
    from a counter that only grows); releasing an id renumbers the wires
    above it so that the live ids keep mapping onto [0, count); using an id
    that is not allocated fails with InvalidQubit. *)
Record t : Type := mk {
  qubits_map : gmap Z nat;
  next_idx : Z
}.

(** Modelled from the spec: the manager of a new simulator, no id issued. *)
Definition empty : t := mk ∅ 0%Z.

(** Modelled from the spec: [isValidQubitId(q)], whether [q] is allocated. *)
Definition isValidQubitId (q : QubitIdType) (qm : t) : bool :=
  bool_decide (is_Some (qubits_map qm !! q)).

(** Modelled from the spec: [getDeviceId(q)], the wire of [q]; InvalidQubit
    when [q] is not allocated. *)
Definition getDeviceId (q : QubitIdType) (qm : t) : outcome nat :=
  match qubits_map qm !! q with
  | Some w => Return w
  | None => Throw "InvalidQubit"
  end.

(** Modelled from the spec: [Allocate(device_qubit_id)], a fresh id for the
    wire. *)
Definition Allocate (device_qubit_id : nat) (qm : t) : QubitIdType * t :=
  (next_idx qm,
   mk (<[next_idx qm := device_qubit_id]> (qubits_map qm)) (next_idx qm + 1)%Z).

(** Modelled from the spec: one fresh id per wire of the list, in order. *)
Fixpoint AllocateWires (device_wires : list nat) (qm : t) : list QubitIdType * t :=
  match device_wires with
  | [] => ([], qm)
  | w :: ws =>
      let '(q, qm1) := Allocate w qm in
      let '(qs, qm2) := AllocateWires ws qm1 in
      (q :: qs, qm2)
  end.

(** Modelled from the spec: [AllocateRange(first, last)], called by the
    simulator with the old and the new qubit count: one fresh id per device
    wire of [first, last), so that the register grows by exactly
    [last - first] ids. *)
Definition AllocateRange (first last : nat) (qm : t) : list QubitIdType * t :=
  AllocateWires (seq first (last - first)) qm.

(** Modelled from the spec: [Release(q)] forgets [q] and moves the wires above
    the one of [q] down by one. *)
Definition Release (q : QubitIdType) (qm : t) : outcome unit * t :=
  match qubits_map qm !! q with
  | None => (Throw "InvalidQubit", qm)
  | Some w =>
      (Return tt,
       mk (fmap (fun w' => if w <? w' then w' - 1 else w') (delete q (qubits_map qm)))
          (next_idx qm))
  end.

(** Modelled from the spec: [ReleaseAll()] forgets every id; the counter stays,
    so that later ids are fresh. *)
Definition ReleaseAll (qm : t) : t := mk ∅ (next_idx qm).

(** Every id that is live was issued by the counter. *)
Definition issued_below (qm : t) : Prop :=
  forall q w, qubits_map qm !! q = Some w -> (q < next_idx qm)%Z.

End QubitManager.

(** *** Cache manager (the operation tape) *)

Module CacheManager.

(** Modelled from the spec: the class [CacheManager] is not among the
    sources.  Sections 3 and 4.4: an append-only record of the applied
    operations (name, parameters, device wires, inverse flag) and of the
    requested observables (key, measurement kind), cleared by [Reset]; the
    parameter count is the number of parameters present in the recorded
    operations.  The fields are the lists the accessors called by the
    simulator return. *)
Record t : Type := mk {
  ops_names : list string;
  ops_params : list (list float);
  ops_wires : list (list nat);
  ops_inverses : list bool;
  obs_keys : list ObsIdType;
  obs_callees : list MeasurementsT.t
}.

(** Modelled from the spec: the tape with no entry. *)
Definition empty : t := mk [] [] [] [] [] [].

(** Modelled from the spec: [Reset()] clears all entries. *)
Definition Reset (_ : t) : t := empty.

(** Modelled from the spec: [addOperation(name, params, dev_wires, inverse)]
    appends one operation entry. *)
Definition addOperation (name : string) (params : list float)
    (dev_wires : list nat) (inverse : bool) (c : t) : t :=
  mk (ops_names c ++ [name]) (ops_params c ++ [params])
     (ops_wires c ++ [dev_wires]) (ops_inverses c ++ [inverse])
     (obs_keys c) (obs_callees c).

(** Modelled from the spec: [addObservable(key, callee)] appends one
    observable entry. *)
Definition addObservable (key : ObsIdType) (callee : MeasurementsT.t) (c : t) : t :=
  mk (ops_names c) (ops_params c) (ops_wires c) (ops_inverses c)
     (obs_keys c ++ [key]) (obs_callees c ++ [callee]).

(** Modelled from the spec: the counts and lists of [Info()] (section 4.4);
    the parameter count is the number of parameters of the recorded
    operations. *)
Definition getNumOperations (c : t) : nat := length (ops_names c).
Definition getNumObservables (c : t) : nat := length (obs_keys c).
Definition getNumParams (c : t) : nat :=
  foldr (fun params n => length params + n) 0 (ops_params c).
Definition getOperationsNames (c : t) : list string := ops_names c.
Definition getOperationsParameters (c : t) : list (list float) := ops_params c.
Definition getOperationsWires (c : t) : list (list nat) := ops_wires c.
Definition getOperationsInverses (c : t) : list bool := ops_inverses c.
Definition getObservablesKeys (c : t) : list ObsIdType := obs_keys c.
Definition getObservablesCallees (c : t) : list MeasurementsT.t := obs_callees c.

End CacheManager.

(** *** Observable registry *)

Module ObsManager.

(** Modelled from the spec: the four observable variants of section 3. *)
Inductive ObservableT : Type :=
| NamedObs (id : ObsId.t) (wires : list nat)
| HermitianObs (matrix : list complex) (wires : list nat)
| TensorProdObs (obs : list ObsIdType)
| HamiltonianObs (coeffs : list float) (obs : list ObsIdType).

(** Modelled from the spec: the class [LightningKokkosObsManager] is not among
    the sources.  Section 4.3: observables are interned under keys that are
    issued in increasing order and never reused; a key is valid when it was
    issued. *)
Definition t : Type := list ObservableT.

(** Modelled from the spec: [isValidObservables(keys)]. *)
Definition isValidObservables (keys : list ObsIdType) (m : t) : bool :=
  forallb (fun k => k <? length m) keys.

(** Modelled from the spec: interning an observable issues the next key. *)
Definition intern (o : ObservableT) (m : t) : ObsIdType * t :=
  (length m, m ++ [o]).

(** Modelled from the spec: the four constructors of the registry. *)
Definition createNamedObs (id : ObsId.t) (wires : list nat) (m : t) : ObsIdType * t :=
  intern (NamedObs id wires) m.
Definition createHermitianObs (matrix : list complex) (wires : list nat) (m : t)
  : ObsIdType * t :=
  intern (HermitianObs matrix wires) m.
Definition createTensorProdObs (obs : list ObsIdType) (m : t) : ObsIdType * t :=
  intern (TensorProdObs obs) m.
Definition createHamiltonianObs (coeffs : list float) (obs : list ObsIdType) (m : t)
  : ObsIdType * t :=
  intern (HamiltonianObs coeffs obs) m.

(** Modelled from the spec: [getObservable(key)], the observable of an issued
    key. *)
Definition getObservable (key : ObsIdType) (m : t) : outcome ObservableT :=
  match m !! key with
  | Some o => Return o
  | None => Throw "Invalid observable key"
  end.

End ObsManager.

(** *** The simulator object *)

Record Simulator : Type := mkSimulator {
  qubit_manager : QubitManager.t;
  device_sv : StateVectorT;
  tape_recording : bool;
  cache_manager : CacheManager.t;
  obs_manager : ObsManager.t;
  device_shots : nat
}.

(** A freshly constructed simulator: no qubit, nothing recorded. *)
Definition Simulator_new : Simulator :=
  mkSimulator QubitManager.empty (StateVector_new 0) false CacheManager.empty [] 0.

Definition set_qubit_manager (qm : QubitManager.t) (s : Simulator) : Simulator :=
  mkSimulator qm (device_sv s) (tape_recording s) (cache_manager s)
              (obs_manager s) (device_shots s).
Definition set_device_sv (sv : StateVectorT) (s : Simulator) : Simulator :=
  mkSimulator (qubit_manager s) sv (tape_recording s) (cache_manager s)
              (obs_manager s) (device_shots s).
Definition set_tape_recording (b : bool) (s : Simulator) : Simulator :=
  mkSimulator (qubit_manager s) (device_sv s) b (cache_manager s)
              (obs_manager s) (device_shots s).
Definition set_cache_manager (c : CacheManager.t) (s : Simulator) : Simulator :=
  mkSimulator (qubit_manager s) (device_sv s) (tape_recording s) c
              (obs_manager s) (device_shots s).
Definition set_obs_manager (m : ObsManager.t) (s : Simulator) : Simulator :=
  mkSimulator (qubit_manager s) (device_sv s) (tape_recording s) (cache_manager s)
              m (device_shots s).
Definition set_device_shots (n : nat) (s : Simulator) : Simulator :=
  mkSimulator (qubit_manager s) (device_sv s) (tape_recording s) (cache_manager s)
              (obs_manager s) n.

Definition modify (f : Simulator -> Simulator) : Run Simulator unit :=
  fun s => (Return tt, f s).

(** ** Qubit allocation *)

Definition GetNumQubits (s : Simulator) : nat := sv_num_qubits (device_sv s).

Definition AllocateQubit : Run Simulator QubitIdType :=
  fun s =>
    let num_qubits := sv_num_qubits (device_sv s) in
    let s1 := set_device_sv (StateVector_new (num_qubits + 1)) s in
    let '(q, qm) := QubitManager.Allocate num_qubits (qubit_manager s1) in
    (Return q, set_qubit_manager qm s1).

Definition AllocateQubits (num_qubits : nat) : Run Simulator (list QubitIdType) :=
  fun s =>
    if num_qubits =? 0 then (Return [], s)
    else
      let cur_num_qubits := sv_num_qubits (device_sv s) in
      let new_num_qubits := cur_num_qubits + num_qubits in
      let s1 := set_device_sv (StateVector_new new_num_qubits) s in
      let '(qs, qm) :=
        QubitManager.AllocateRange cur_num_qubits new_num_qubits (qubit_manager s1) in
      (Return qs, set_qubit_manager qm s1).

Definition ReleaseQubit (q : QubitIdType) : Run Simulator unit :=
  fun s =>
    let '(r, qm) := QubitManager.Release q (qubit_manager s) in
    (r, set_qubit_manager qm s).

Definition ReleaseAllQubits : Run Simulator unit :=
  fun s =>
    let s1 := set_qubit_manager (QubitManager.ReleaseAll (qubit_manager s)) s in
    (Return tt, set_device_sv (StateVector_new 0) s1).

(** ** Tape recording *)

Definition StartTapeRecording : Run Simulator unit :=
  let* s := get in
  do RT_FAIL_IF (tape_recording s) "Cannot re-activate the cache manager" in
  do modify (set_tape_recording true) in
  modify (fun s => set_cache_manager (CacheManager.Reset (cache_manager s)) s).

Definition StopTapeRecording : Run Simulator unit :=
  let* s := get in
  do RT_FAIL_IF (negb (tape_recording s)) "Cannot stop an already stopped cache manager" in
  modify (set_tape_recording false).

Definition CacheManagerInfo (s : Simulator)
  : nat * nat * nat * list string * list ObsIdType :=
  (CacheManager.getNumOperations (cache_manager s),
   CacheManager.getNumObservables (cache_manager s),
   CacheManager.getNumParams (cache_manager s),
   CacheManager.getOperationsNames (cache_manager s),
   CacheManager.getObservablesKeys (cache_manager s)).

Definition SetDeviceShots (shots : nat) : Run Simulator unit :=
  modify (set_device_shots shots).

Definition GetDeviceShots (s : Simulator) : nat := device_shots s.

(** ** The external engines

    The gate table, the kernels that apply gates, the measurement and sampling
    kernels and the adjoint-Jacobian kernel belong to PennyLane-Lightning and
    to the runtime's gate tables, not to this file: the simulator is stated
    over any of them. *)

(** [OpsData] and [JacobianData]: what [Gradient] hands to the adjoint kernel. *)
Record OpsData : Type := mkOpsData {
  od_names : list string;
  od_params : list (list float);
  od_wires : list (list nat);
  od_inverses : list bool
}.

Record JacobianData : Type := mkJacobianData {
  jd_num_params : nat;
  jd_state : list complex;
  jd_observables : list ObsManager.ObservableT;
  jd_operations : OpsData;
  jd_trainable_params : list nat
}.

Record Engine : Type := mkEngine {
  (** [Lightning::simulator_gate_info]: name, number of wires, number of
      parameters. *)
  simulator_gate_info : list (string * (nat * nat));
  (** [StateVectorT::applyOperation(name, wires, inverse, params)]. *)
  applyOperation :
    string -> list nat -> bool -> list float -> StateVectorT -> outcome StateVectorT;
  (** [StateVectorT::applyMultiQubitOp(matrix, wires, inverse)]. *)
  applyMultiQubitOp :
    list complex -> list nat -> bool -> StateVectorT -> outcome StateVectorT;
  (** [Measurements::probs(wires)] and [Measurements::probs(wires, shots)]. *)
  probs_wires : StateVectorT -> list nat -> list float;
  probs_wires_shots : StateVectorT -> list nat -> nat -> list float;
  (** [Measurements::expval] and [Measurements::var], exact and with shots. *)
  expval_obs : StateVectorT -> ObsManager.ObservableT -> float;
  expval_obs_shots : StateVectorT -> ObsManager.ObservableT -> nat -> float;
  var_obs : StateVectorT -> ObsManager.ObservableT -> float;
  var_obs_shots : StateVectorT -> ObsManager.ObservableT -> nat -> float;
  (** [Measurements::generate_samples(shots)]: [shots * qubits] entries, one
      bit each, shot after shot.  The sampler is random: the value stands
      for the bits one call draws, and two calls need not draw the same
      bits, so the properties below are about one call each. *)
  generate_samples : StateVectorT -> nat -> list nat;
  (** [AdjointJacobian::adjointJacobian(jac, tape, ref_data, false)]: the
      kernel writes into the span [jac] it is given; the result is the value
      it leaves at each index of the span. *)
  adjointJacobian : JacobianData -> StateVectorT -> outcome (nat -> float)
}.

(** Modelled from the spec: [Lightning::lookup_gates] is not among the sources.
    Section 6: given an operation name, the wire arity and the parameter
    arity of the gate, or a failure when the name is not in the table. *)
Fixpoint lookup_gates (gate_info : list (string * (nat * nat))) (name : string)
  : outcome (nat * nat) :=
  match gate_info with
  | [] => Throw "The given operation is not supported by the simulator"
  | (n, arity) :: rest => if String.eqb n name then Return arity else lookup_gates rest name
  end.

Section Simulator.

Context (E : Engine).

(** *** Wires *)

(** Modelled from the spec: [getDeviceWires] and [isValidQubits] are declared
    in the header, which is not among the sources.  Section 4.1:
    [DeviceWires] translates every id and fails with InvalidQubit on an id
    that is not allocated. *)
Fixpoint getDeviceWires (wires : list QubitIdType) : Run Simulator (list nat) :=
  match wires with
  | [] => ret []
  | w :: ws =>
      let* s := get in
      let* d := call (QubitManager.getDeviceId w (qubit_manager s)) in
      let* ds := getDeviceWires ws in
      ret (d :: ds)
  end.

Definition isValidQubits (wires : list QubitIdType) (s : Simulator) : bool :=
  forallb (fun w => QubitManager.isValidQubitId w (qubit_manager s)) wires.

(** *** Operations *)

Definition NamedOperation (name : string) (params : list float)
    (wires : list QubitIdType) (inverse : bool) : Run Simulator unit :=
  (* First, check if operation `name` is supported by the simulator *)
  let* arity := call (lookup_gates (simulator_gate_info E) name) in
  let op_num_wires := fst arity in
  let op_num_params := snd arity in
  (* Check the validity of number of qubits and parameters *)
  do RT_FAIL_IF ((length wires =? 0) && negb (length wires =? op_num_wires))
                "Invalid number of qubits" in
  do RT_FAIL_IF (negb (length params =? op_num_params))
                "Invalid number of parameters" in
  (* Convert wires to device wires *)
  let* dev_wires := getDeviceWires wires in
  (* Update the state-vector *)
  let* s := get in
  let* sv := call (applyOperation E name dev_wires inverse params (device_sv s)) in
  do modify (set_device_sv sv) in
  (* Update tape caching if required *)
  let* s := get in
  if tape_recording s then
    modify (fun s => set_cache_manager
                       (CacheManager.addOperation name params dev_wires inverse
                                                  (cache_manager s)) s)
  else ret tt.

Definition MatrixOperation (matrix : list complex) (wires : list QubitIdType)
    (inverse : bool) : Run Simulator unit :=
  (* Check the validity of number of qubits and parameters *)
  do RT_FAIL_IF (length wires =? 0) "Invalid number of qubits" in
  (* Convert wires to device wires *)
  let* dev_wires := getDeviceWires wires in
  let gate_matrix := matrix in
  (* Update the state-vector *)
  let* s := get in
  let* sv := call (applyMultiQubitOp E gate_matrix dev_wires inverse (device_sv s)) in
  do modify (set_device_sv sv) in
  (* Update tape caching if required *)
  let* s := get in
  if tape_recording s then
    modify (fun s => set_cache_manager
                       (CacheManager.addOperation "MatrixOp" [] dev_wires inverse
                                                  (cache_manager s)) s)
  else ret tt.

(** *** Observables and measurements *)

Definition Observable (id : ObsId.t) (matrix : list complex) (wires : list QubitIdType)
  : Run Simulator ObsIdType :=
  let* s := get in
  do RT_FAIL_IF (GetNumQubits s <? length wires) "Invalid number of wires" in
  do RT_FAIL_IF (negb (isValidQubits wires s)) "Invalid given wires" in
  let* dev_wires := getDeviceWires wires in
  let* s := get in
  let '(key, m) :=
    if ObsId.eqb id ObsId.Hermitian
    then ObsManager.createHermitianObs matrix dev_wires (obs_manager s)
    else ObsManager.createNamedObs id dev_wires (obs_manager s) in
  do modify (set_obs_manager m) in
  ret key.

Definition TensorObservable (obs : list ObsIdType) : Run Simulator ObsIdType :=
  let* s := get in
  let '(key, m) := ObsManager.createTensorProdObs obs (obs_manager s) in
  do modify (set_obs_manager m) in
  ret key.

Definition HamiltonianObservable (coeffs : list float) (obs : list ObsIdType)
  : Run Simulator ObsIdType :=
  let* s := get in
  let '(key, m) := ObsManager.createHamiltonianObs coeffs obs (obs_manager s) in
  do modify (set_obs_manager m) in
  ret key.

Definition Expval (obsKey : ObsIdType) : Run Simulator float :=
  let* s := get in
  do RT_FAIL_IF (negb (ObsManager.isValidObservables [obsKey] (obs_manager s)))
                "Invalid key for cached observables" in
  (* update tape caching *)
  do (if tape_recording s then
        modify (fun s => set_cache_manager
                           (CacheManager.addObservable obsKey MeasurementsT.Expval (cache_manager s)) s)
      else ret tt) in
  let* s := get in
  let* obs := call (ObsManager.getObservable obsKey (obs_manager s)) in
  ret (if device_shots s =? 0 then expval_obs E (device_sv s) obs
       else expval_obs_shots E (device_sv s) obs (device_shots s)).

Definition Var (obsKey : ObsIdType) : Run Simulator float :=
  let* s := get in
  do RT_FAIL_IF (negb (ObsManager.isValidObservables [obsKey] (obs_manager s)))
                "Invalid key for cached observables" in
  (* update tape caching *)
  do (if tape_recording s then
        modify (fun s => set_cache_manager
                           (CacheManager.addObservable obsKey MeasurementsT.Var (cache_manager s)) s)
      else ret tt) in
  let* s := get in
  let* obs := call (ObsManager.getObservable obsKey (obs_manager s)) in
  ret (if device_shots s =? 0 then var_obs E (device_sv s) obs
       else var_obs_shots E (device_sv s) obs (device_shots s)).

(** [PartialProbs(probs, wires)]: [probs] is the caller's buffer; the result is
    its content after the call. *)
Definition PartialProbs (probs : list float) (wires : list QubitIdType)
  : Run Simulator (list float) :=
  let* s := get in
  let numWires := length wires in
  let numQubits := GetNumQubits s in
  do RT_FAIL_IF (numQubits <? numWires) "Invalid number of wires" in
  do RT_FAIL_IF (negb (isValidQubits wires s)) "Invalid given wires to measure" in
  let* dev_wires := getDeviceWires wires in
  let dv_probs := if device_shots s =? 0 then probs_wires E (device_sv s) dev_wires
                  else probs_wires_shots E (device_sv s) dev_wires (device_shots s) in
  do RT_FAIL_IF (negb (length probs =? length dv_probs))
                "Invalid size for the pre-allocated partial-probabilities" in
  ret dv_probs.

(** *** Counts *)

(** [1U << n], computed in 32 bits.  For [n >= 32] the shift is undefined
    in C++; the value written here for that case is not used: every property
    of the functions that compute it is stated for [n < 32]. *)
Definition shl1_32 (n : nat) : nat :=
  Z.to_nat (Z.shiftl 1 (Z.of_nat n) mod 2 ^ 32).

(** [static_cast<double>(i)] of a non-negative integer below [2^63]. *)
Definition double_of_nat (i : nat) : float :=
  PrimFloat.of_uint63 (Uint63.of_Z (Z.of_nat i)).

(** [std::iota(first, last, 0)] and [std::fill(first, last, 0)] on a buffer. *)
Definition iota (buffer : list float) : list float :=
  map double_of_nat (seq 0 (length buffer)).
Definition fill_zero (buffer : list Z) : list Z :=
  replicate (length buffer) 0%Z.

(** [basisState[idx] = bit] on a [std::bitset<64>], held as its
    [to_ulong()] value: index 0 is the least significant bit.  (The size
    check of [Counts] lets fewer than 32 wires through, so [idx] stays inside
    the 64 bits.) *)
Definition bitset_set (basisState : Z) (idx : nat) (bit : bool) : Z :=
  if bit then Z.setbit basisState (Z.of_nat idx)
  else Z.clearbit basisState (Z.of_nat idx).

(** The inner loop of [Counts] and [PartialCounts]:
    [for (wire : wires) basisState[idx++] = li_samples[shot * numQubits + wire];] *)
Fixpoint gather_bits (li_samples : list nat) (numQubits shot : nat)
    (wires : list nat) (idx : nat) (basisState : Z) : Z :=
  match wires with
  | [] => basisState
  | wire :: rest =>
      let bit := negb (nth (shot * numQubits + wire) li_samples 0 =? 0) in
      gather_bits li_samples numQubits shot rest (S idx) (bitset_set basisState idx bit)
  end.

(** The bin of one shot: [basisState.to_ulong()]. *)
Definition shot_bin (li_samples : list nat) (numQubits shot : nat) (wires : list nat) : nat :=
  Z.to_nat (gather_bits li_samples numQubits shot wires 0 0%Z).

(** The outer loop: [counts(bin) += 1] for every shot.  The counters are
    [int64_t], start at 0 and go up by one per shot. *)
Definition count_shots (li_samples : list nat) (numQubits : nat) (wires : list nat)
    (shots : nat) (counts : list Z) : list Z :=
  fold_left
    (fun counts shot =>
       alter (fun c => (c + 1)%Z) (shot_bin li_samples numQubits shot wires) counts)
    (seq 0 shots) counts.

(** [Counts(eigvals, counts, shots)]: the two buffers after the call. *)
Definition Counts (eigvals : list float) (counts : list Z) (shots : nat)
  : Run Simulator (list float * list Z) :=
  let* s := get in
  let numQubits := GetNumQubits s in
  let numElements := shl1_32 numQubits in
  do RT_FAIL_IF (negb (length eigvals =? numElements) || negb (length counts =? numElements))
                "Invalid size for the pre-allocated counts" in
  let li_samples := generate_samples E (device_sv s) shots in
  let eigvals := iota eigvals in
  let counts := fill_zero counts in
  ret (eigvals, count_shots li_samples numQubits (seq 0 numQubits) shots counts).

Definition PartialCounts (eigvals : list float) (counts : list Z)
    (wires : list QubitIdType) (shots : nat) : Run Simulator (list float * list Z) :=
  let* s := get in
  let numWires := length wires in
  let numQubits := GetNumQubits s in
  let numElements := shl1_32 numWires in
  do RT_FAIL_IF (numQubits <? numWires) "Invalid number of wires" in
  do RT_FAIL_IF (negb (isValidQubits wires s)) "Invalid given wires to measure" in
  do RT_FAIL_IF (negb (length eigvals =? numElements) || negb (length counts =? numElements))
                "Invalid size for the pre-allocated partial-counts" in
  let* dev_wires := getDeviceWires wires in
  let li_samples := generate_samples E (device_sv s) shots in
  let eigvals := iota eigvals in
  let counts := fill_zero counts in
  ret (eigvals, count_shots li_samples numQubits dev_wires shots counts).

(** *** Measure *)

(** [real(c * conj(c))] with [Kokkos::complex]'s product. *)
Definition norm_sq (c : complex) : float :=
  let '(re, im) := c in (re * re - im * (- im))%float.

(** [elem /= norm] with a real divisor. *)
Definition cdiv (norm : float) (c : complex) : complex :=
  let '(re, im) := c in (re / norm, im / norm)%float.

(** The two loops that zero half of the entries:
    [state[stride * (k + 2 * idx) + ids] = 0]. *)
Definition zero_half (stride half_section_size k : nat) (state : list complex)
  : list complex :=
  fold_left
    (fun state idx =>
       fold_left (fun state ids => <[stride * (k + 2 * idx) + ids := czero]> state)
                 (seq 0 stride) state)
    (seq 0 half_section_size) state.

(** [std::accumulate(state.begin(), state.end(), 0.0, sum + real(c * conj(c)))]. *)
Definition total_mass (state : list complex) : float :=
  fold_left (fun sum c => (sum + norm_sq c)%float) state 0%float.

(** [std::for_each(state.begin(), state.end(), elem /= norm)] with
    [norm = std::sqrt(total)]. *)
Definition normalize (state : list complex) : list complex :=
  let total := total_mass state in
  let norm := PrimFloat.sqrt total in
  map (cdiv norm) state.

(** [Measure(wire)].  [draw] is the value of the variable [draw], that is the
    number drawn from [std::uniform_real_distribution<>(0., 1.)] stored as a
    [float]; the comparison with [probs[0]] is done in [double].
    [stride], [vec_size], [section_size] and [half_section_size] are
    [double]s in the source; they are powers of two, computed exactly, and
    are kept as [nat].  The wire of a live qubit is below [num_qubits], so
    [num_qubits - (1 + dev_wires[0])] does not wrap. *)
Definition Measure (draw : float) (wire : QubitIdType) : Run Simulator Result :=
  (* get a measurement *)
  let wires := [wire] in
  let probs := replicate (shl1_32 (length wires)) 0%float in
  let* probs := PartialProbs probs wires in
  let mres := (nth 0 probs 0 <? draw)%float in
  let* s := get in
  let num_qubits := GetNumQubits s in
  let* dev_wires := getDeviceWires wires in
  let stride := 2 ^ (num_qubits - (1 + nth 0 dev_wires 0)) in
  let vec_size := 2 ^ num_qubits in
  let section_size := vec_size / stride in
  let half_section_size := section_size / 2 in
  (* copy data from device to host *)
  let state := sv_data (device_sv s) in
  (* zero half the entries *)
  let k := if mres then 0 else 1 in
  let state := zero_half stride half_section_size k state in
  (* get the total of the new vector and normalize *)
  let state := normalize state in
  do modify (set_device_sv (StateVector_from state vec_size)) in
  ret (if mres then One else Zero).

(** *** Gradient *)

Fixpoint getObservables (keys : list ObsIdType) (m : ObsManager.t)
  : outcome (list ObsManager.ObservableT) :=
  match keys with
  | [] => Return []
  | key :: rest =>
      match ObsManager.getObservable key m with
      | Throw msg => Throw msg
      | Return o =>
          match getObservables rest m with
          | Throw msg => Throw msg
          | Return os => Return (o :: os)
          end
      end
  end.

(** What [Gradient] passes to the kernel as the tape. *)
Definition jacobian_tape (s : Simulator) (trainParams : list nat)
    (obs_vec : list ObsManager.ObservableT) : JacobianData :=
  let c := cache_manager s in
  let tp_empty := length trainParams =? 0 in
  let num_params := CacheManager.getNumParams c in
  let ops := mkOpsData (CacheManager.getOperationsNames c)
                       (CacheManager.getOperationsParameters c)
                       (CacheManager.getOperationsWires c)
                       (CacheManager.getOperationsInverses c) in
  let all_params := if tp_empty then seq 0 num_params else [] in
  mkJacobianData num_params (sv_data (device_sv s)) obs_vec ops
                 (if tp_empty then all_params else trainParams).

(** The last loop of [Gradient], over [obs_idx]; [begin_loc] is the offset of
    [begin_loc_iter] in [jacobian], and the state is the caller's buffers. *)
Fixpoint distribute (jacobian : list float) (num_train_params : nat)
    (obs_indices : list nat) (begin_loc : nat) : Run (list (list float)) unit :=
  match obs_indices with
  | [] => ret tt
  | obs_idx :: rest =>
      do RT_ASSERT (negb (begin_loc =? length jacobian))
                   "begin_loc_iter != jacobian.end()" in
      let* gradients := get in
      let buffer := default [] (gradients !! obs_idx) in
      do RT_ASSERT (num_train_params <=? length buffer)
                   "num_train_params <= gradients[obs_idx].size()" in
      let cur_buffer := take num_train_params (drop begin_loc jacobian) in
      do put (<[obs_idx := cur_buffer ++ drop (length cur_buffer) buffer]> gradients) in
      distribute jacobian num_train_params rest (begin_loc + num_train_params)
  end.

(** The locals [num_train_params] and [jac_size] of [Gradient]. *)
Definition num_train_params (trainParams : list nat) (s : Simulator) : nat :=
  let tp_empty := length trainParams =? 0 in
  let num_params := CacheManager.getNumParams (cache_manager s) in
  if tp_empty then num_params else length trainParams.

Definition jac_size (trainParams : list nat) (s : Simulator) : nat :=
  num_train_params trainParams s * CacheManager.getNumObservables (cache_manager s).

(** [Gradient(gradients, trainParams)] reads the simulator [s] and writes the
    caller's buffers [gradients]. *)
Definition Gradient (trainParams : list nat) (s : Simulator)
  : Run (list (list float)) unit :=
  let c := cache_manager s in
  let num_observables := CacheManager.getNumObservables c in
  let num_train_params := num_train_params trainParams s in
  let jac_size := jac_size trainParams s in
  if jac_size =? 0 then ret tt
  else
    let* gradients := get in
    do RT_FAIL_IF (negb (length gradients =? num_observables))
                  "Invalid number of pre-allocated gradients" in
    let obs_callees := CacheManager.getObservablesCallees c in
    let is_valid_measurements :=
      forallb (fun m => MeasurementsT.eqb m MeasurementsT.Expval) obs_callees in
    do RT_FAIL_IF (negb is_valid_measurements)
                  "Unsupported measurements to compute gradient; Adjoint differentiation method only supports expectation return type" in
    (* Create the vector of observables *)
    let obs_keys := CacheManager.getObservablesKeys c in
    let* obs_vec := call (getObservables obs_keys (obs_manager s)) in
    (* construct the Jacobian data *)
    let tape := jacobian_tape s trainParams obs_vec in
    let* written := call (adjointJacobian E tape (device_sv s)) in
    let jacobian := map written (seq 0 jac_size) in
    distribute jacobian num_train_params (seq 0 num_observables) 0.

End Simulator.

(** ** Histories of the qubit register

    The four member functions that touch the qubit manager, and the
    simulators a sequence of such calls goes through. *)

Inductive QubitCall : Type :=
| Call_AllocateQubit
| Call_AllocateQubits (num_qubits : nat)
| Call_ReleaseQubit (q : QubitIdType)
| Call_ReleaseAllQubits.

Definition run_call (c : QubitCall) (s : Simulator) : Simulator :=
  match c with
  | Call_AllocateQubit => snd (AllocateQubit s)
  | Call_AllocateQubits n => snd (AllocateQubits n s)
  | Call_ReleaseQubit q => snd (ReleaseQubit q s)
  | Call_ReleaseAllQubits => snd (ReleaseAllQubits s)
  end.

(** The simulators visited by [calls] from [s], [s] first. *)
Fixpoint history (calls : list QubitCall) (s : Simulator) : list Simulator :=
  match calls with
  | [] => [s]
  | c :: rest => s :: history rest (run_call c s)
  end.

Fixpoint run_calls (calls : list QubitCall) (s : Simulator) : Simulator :=
  match calls with
  | [] => s
  | c :: rest => run_calls rest (run_call c s)
  end.

Definition is_live (q : QubitIdType) (s : Simulator) : Prop :=
  is_Some (QubitManager.qubits_map (qubit_manager s) !! q).

(** ** Error kinds of the specification, as the messages the code throws *)

Definition AlreadyRecording : string := "Cannot re-activate the cache manager".
Definition NotRecording : string := "Cannot stop an already stopped cache manager".
Definition InvalidArity_qubits : string := "Invalid number of qubits".
Definition InvalidArity_params : string := "Invalid number of parameters".
Definition InvalidArity_gradients : string := "Invalid number of pre-allocated gradients".
Definition UnsupportedMeasurement : string :=
  "Unsupported measurements to compute gradient; Adjoint differentiation method only supports expectation return type".

Definition is_InvalidArity (message : string) : Prop :=
  message = InvalidArity_qubits \/ message = InvalidArity_params
  \/ message = InvalidArity_gradients.

(** ** A scripted engine

    The kernels answer with fixed values: [apply] is what the gate kernels do
    to the state vector, [probs] the probabilities, [samples] the sampled
    bits and [jac] the Jacobian entries.  It stands in for PennyLane-Lightning
    when the simulator is run on a concrete input. *)
Definition scripted_gate_info : list (string * (nat * nat)) :=
  [("PauliX"%string, (1, 0)); ("RX"%string, (1, 1)); ("CNOT"%string, (2, 0))].

Definition scripted (apply : StateVectorT -> StateVectorT) (probs : list float)
    (samples : list nat) (jac : nat -> float) : Engine :=
  mkEngine scripted_gate_info
           (fun _ _ _ _ sv => Return (apply sv))
           (fun _ _ _ sv => Return (apply sv))
           (fun _ _ => probs) (fun _ _ _ => probs)
           (fun _ _ => 0%float) (fun _ _ _ => 0%float)
           (fun _ _ => 0%float) (fun _ _ _ => 0%float)
           (fun _ _ => samples)
           (fun _ _ => Return jac).

(** [rev_amplitudes] is the scripted gate kernel used below: it reverses the
    amplitude vector, so a kernel call is visible in the state. *)
Definition rev_amplitudes (sv : StateVectorT) : StateVectorT :=
  mkStateVector (sv_num_qubits sv) (rev (sv_data sv)).

Definition no_jac : nat -> float := fun _ => 0%float.

(** Two qubits, ids 0 and 1, fresh from [AllocateQubits(2)]. *)
Definition sim_two_qubits : Simulator := snd (AllocateQubits 2 Simulator_new).

(** One qubit, id 0. *)
Definition sim_one_qubit : Simulator := snd (AllocateQubits 1 Simulator_new).

(** Run a member function for its effect on the simulator. *)
Definition after {A} (m : Run Simulator A) (s : Simulator) : Simulator := snd (m s).

Definition scripted_plain : Engine := scripted rev_amplitudes [] [] no_jac.

(** One qubit with the observable PauliZ on it under key 0, recording on. *)
Definition sim_recording : Simulator :=
  after StartTapeRecording
        (after (Observable ObsId.PauliZ [] [0%Z]) sim_one_qubit).

(** The tape "PauliX on the qubit, then the variance of PauliZ": one Var
    entry and no parameter. *)
Definition sim_var_no_params : Simulator :=
  after (Var scripted_plain 0)
        (after (NamedOperation scripted_plain "PauliX" [] [0%Z] false) sim_recording).

(** The tape "RX(0.5) on the qubit, then the variance of PauliZ". *)
Definition sim_rx_var : Simulator :=
  after (Var scripted_plain 0)
        (after (NamedOperation scripted_plain "RX" [0.5%float] [0%Z] false) sim_recording).

(** The tape "RX(0.5), then the expectation value of PauliZ, twice". *)
Definition sim_rx_expval : Simulator :=
  after (Expval scripted_plain 0)
        (after (Expval scripted_plain 0)
               (after (NamedOperation scripted_plain "RX" [0.5%float] [0%Z] false)
                      sim_recording)).

(** The tape "PauliX on the qubit, then the expectation value of PauliZ": one
    observable and no parameter. *)
Definition sim_expval_no_params : Simulator :=
  after (Expval scripted_plain 0)
        (after (NamedOperation scripted_plain "PauliX" [] [0%Z] false) sim_recording).

(** The tape "RX(0.5) on the qubit": one parameter and no observable. *)
Definition sim_rx_only : Simulator :=
  after (NamedOperation scripted_plain "RX" [0.5%float] [0%Z] false) sim_recording.

(** The qubit carries [|1>]: PauliX went through the scripted kernel. *)
Definition sim_flipped : Simulator :=
  after (NamedOperation scripted_plain "PauliX" [] [0%Z] false) sim_one_qubit.

(** The qubit carries an equal superposition: both outcomes have
    probability 0.5. *)
Definition sim_half : Simulator :=
  set_device_sv (mkStateVector 1 [(0.5, 0.5); (0.5, 0.5)]%float) sim_one_qubit.

(** The vector [Measure] is left with after zeroing, before it is
    normalized: the entries of [state] whose bit of [dev_wire] disagrees with
    the outcome [mres] are zero. *)
Definition zeroed (num_qubits dev_wire : nat) (mres : bool) (state : list complex)
  : list complex :=
  zero_half (2 ^ (num_qubits - (1 + dev_wire)))
            (2 ^ num_qubits / 2 ^ (num_qubits - (1 + dev_wire)) / 2)
            (if mres then 0 else 1) state.

(** The bin the specification asks for: the gathered bits read as an integer
    with the first queried wire as the most significant bit. *)
Definition big_endian_bin (bits : list bool) : nat :=
  fold_left (fun acc (bit : bool) => 2 * acc + (if bit then 1 else 0)) bits 0.

(** The bit sampled for [wire] in [shot]. *)
Definition sample_bit (li_samples : list nat) (numQubits shot wire : nat) : bool :=
  negb (nth (shot * numQubits + wire) li_samples 0 =? 0).

(** The buffer of observable [i] after the copy: the segment of the Jacobian
    that starts at [i * num_train_params], then the rest of the buffer. *)
Definition segment_into (jacobian : list float) (num_train_params i : nat)
    (buffer : list float) : list float :=
  take num_train_params (drop (i * num_train_params) jacobian)
  ++ drop num_train_params buffer.

(** ** The retrieval functions

    [State], [Probs], [Sample] and [PartialSample] write into a buffer of the
    caller; as for [PartialProbs], the result is the content of the buffer
    after the call.  A [DataView<double, 2>] is held flat, row after row, as
    its iterator walks it. *)

Section Retrieval.

Context (E : Engine).

(** [Measurements::probs()] and [Measurements::probs(shots)] over all wires,
    two more kernels of PennyLane-Lightning. *)
Variable probs_all : StateVectorT -> list float.
Variable probs_all_shots : StateVectorT -> nat -> list float.

(** [Pennylane::Util::exp2(n)], the number of amplitudes of [n] qubits. *)
Definition exp2 (n : nat) : nat := 2 ^ n.

(** [State(state)]: the device data (one amplitude per basis state) is copied
    to a host buffer and moved over the caller's view from its beginning. *)
Definition State (state : list complex) : Run Simulator (list complex) :=
  let* s := get in
  let num_qubits := sv_num_qubits (device_sv s) in
  let size := exp2 num_qubits in
  do RT_FAIL_IF (negb (length state =? size))
                "Invalid size for the pre-allocated state vector" in
  (* copy data from device to host *)
  let buffer := sv_data (device_sv s) in
  (* move data to state *)
  ret (buffer ++ drop (length buffer) state).

Definition Probs (probs : list float) : Run Simulator (list float) :=
  let* s := get in
  let dv_probs := if device_shots s =? 0 then probs_all (device_sv s)
                  else probs_all_shots (device_sv s) (device_shots s) in
  do RT_FAIL_IF (negb (length probs =? length dv_probs))
                "Invalid size for the pre-allocated probabilities" in
  ret dv_probs.

(** The loops of [Sample] and [PartialSample]:
    [*(samplesIter++) = static_cast<double>(li_samples[shot * numQubits + wire])]
    for every wire of [wires], shot after shot.  The iterator is the index
    of the next entry of the buffer. *)
Definition write_shot (li_samples : list nat) (numQubits : nat) (wires : list nat)
    (acc : nat * list float) (shot : nat) : nat * list float :=
  fold_left
    (fun '(samplesIter, samples) wire =>
       (S samplesIter,
        <[samplesIter := double_of_nat (nth (shot * numQubits + wire) li_samples 0)]>
          samples))
    wires acc.

Definition write_samples (li_samples : list nat) (numQubits : nat) (wires : list nat)
    (shots : nat) (samples : list float) : list float :=
  snd (fold_left (write_shot li_samples numQubits wires) (seq 0 shots) (0, samples)).

Definition Sample (samples : list float) (shots : nat) : Run Simulator (list float) :=
  let* s := get in
  let li_samples := generate_samples E (device_sv s) shots in
  do RT_FAIL_IF (negb (length samples =? length li_samples))
                "Invalid size for the pre-allocated samples" in
  let numQubits := GetNumQubits s in
  ret (write_samples li_samples numQubits (seq 0 numQubits) shots samples).

Definition PartialSample (samples : list float) (wires : list QubitIdType)
    (shots : nat) : Run Simulator (list float) :=
  let* s := get in
  let numWires := length wires in
  let numQubits := GetNumQubits s in
  do RT_FAIL_IF (numQubits <? numWires) "Invalid number of wires" in
  do RT_FAIL_IF (negb (isValidQubits wires s)) "Invalid given wires to measure" in
  do RT_FAIL_IF (negb (length samples =? shots * numWires))
                "Invalid size for the pre-allocated partial-samples" in
  (* get device wires *)
  let* dev_wires := getDeviceWires wires in
  let li_samples := generate_samples E (device_sv s) shots in
  ret (write_samples li_samples numQubits dev_wires shots samples).

End Retrieval.

(** ** Sequences of operations *)

(** A call of [NamedOperation] or of [MatrixOperation] with its arguments. *)
Inductive OperationCall : Type :=
| Call_NamedOperation (name : string) (params : list float)
                      (wires : list QubitIdType) (inverse : bool)
| Call_MatrixOperation (matrix : list complex) (wires : list QubitIdType)
                       (inverse : bool).

Definition apply_call (E : Engine) (c : OperationCall) : Run Simulator unit :=
  match c with
  | Call_NamedOperation name params wires inverse =>
      NamedOperation E name params wires inverse
  | Call_MatrixOperation matrix wires inverse =>
      MatrixOperation E matrix wires inverse
  end.

(** The calls one after the other; the first exception ends the sequence. *)
Fixpoint apply_calls (E : Engine) (calls : list OperationCall) : Run Simulator unit :=
  match calls with
  | [] => ret tt
  | c :: rest => do apply_call E c in apply_calls E rest
  end.

(** The name and the parameters under which a call is recorded. *)
Definition call_name (c : OperationCall) : string :=
  match c with
  | Call_NamedOperation name _ _ _ => name
  | Call_MatrixOperation _ _ _ => "MatrixOp"
  end.

Definition call_params (c : OperationCall) : list float :=
  match c with
  | Call_NamedOperation _ params _ _ => params
  | Call_MatrixOperation _ _ _ => []
  end.

(** The state vector has one amplitude per basis state. *)
Definition sv_wf (sv : StateVectorT) : Prop :=
  length (sv_data sv) = 2 ^ sv_num_qubits sv.

(** The number of shots of [0 .. shots - 1] that fall into bin [b]. *)
Definition shots_in_bin (li_samples : list nat) (numQubits : nat) (wires : list nat)
    (shots b : nat) : nat :=
  length (filter (fun shot => shot_bin li_samples numQubits shot wires = b)
                 (seq 0 shots)).

(** The sum of the counters of a histogram. *)
Definition total_counts (counts : list Z) : Z := foldr Z.add 0%Z counts.

(** The bit of wire [dev_wire] in the basis-state index [v] of a register of
    [num_qubits] qubits, as [Measure] strides over it: wire 0 is the most
    significant bit. *)
Definition index_bit (num_qubits dev_wire v : nat) : nat :=
  (v / 2 ^ (num_qubits - 1 - dev_wire)) mod 2.

(** The outcome as a bit. *)
Definition result_bit (r : Result) : nat :=
  match r with
  | Zero => 0
  | One => 1
  end.

(** ** Sessions

    A call of a member function that runs on the simulator, with its
    arguments; for [Measure] the argument [draw] is the random number of the
    call.  [GetNumQubits], [GetDeviceShots], [CacheManagerInfo] and
    [Gradient] are given the simulator to read and return no new one, so
    they are no steps of a session. *)
Inductive ApiCall : Type :=
| Api_Qubit (c : QubitCall)
| Api_StartTapeRecording
| Api_StopTapeRecording
| Api_SetDeviceShots (shots : nat)
| Api_Operation (c : OperationCall)
| Api_Observable (id : ObsId.t) (matrix : list complex) (wires : list QubitIdType)
| Api_TensorObservable (obs : list ObsIdType)
| Api_HamiltonianObservable (coeffs : list float) (obs : list ObsIdType)
| Api_Expval (obsKey : ObsIdType)
| Api_Var (obsKey : ObsIdType)
| Api_State (state : list complex)
| Api_Probs (probs : list float)
| Api_PartialProbs (probs : list float) (wires : list QubitIdType)
| Api_Sample (samples : list float) (shots : nat)
| Api_PartialSample (samples : list float) (wires : list QubitIdType) (shots : nat)
| Api_Counts (eigvals : list float) (counts : list Z) (shots : nat)
| Api_PartialCounts (eigvals : list float) (counts : list Z)
                    (wires : list QubitIdType) (shots : nat)
| Api_Measure (draw : float) (wire : QubitIdType).

Section Session.

Context (E : Engine).
Variable probs_all : StateVectorT -> list float.
Variable probs_all_shots : StateVectorT -> nat -> list float.

(** The simulator after the call, whether it returned or threw. *)
Definition run_api (c : ApiCall) (s : Simulator) : Simulator :=
  match c with
  | Api_Qubit c => run_call c s
  | Api_StartTapeRecording => after StartTapeRecording s
  | Api_StopTapeRecording => after StopTapeRecording s
  | Api_SetDeviceShots shots => after (SetDeviceShots shots) s
  | Api_Operation c => after (apply_call E c) s
  | Api_Observable id matrix wires => after (Observable id matrix wires) s
  | Api_TensorObservable obs => after (TensorObservable obs) s
  | Api_HamiltonianObservable coeffs obs => after (HamiltonianObservable coeffs obs) s
  | Api_Expval obsKey => after (Expval E obsKey) s
  | Api_Var obsKey => after (Var E obsKey) s
  | Api_State state => after (State state) s
  | Api_Probs probs => after (Probs probs_all probs_all_shots probs) s
  | Api_PartialProbs probs wires => after (PartialProbs E probs wires) s
  | Api_Sample samples shots => after (Sample E samples shots) s
  | Api_PartialSample samples wires shots => after (PartialSample E samples wires shots) s
  | Api_Counts eigvals counts shots => after (Counts E eigvals counts shots) s
  | Api_PartialCounts eigvals counts wires shots =>
      after (PartialCounts E eigvals counts wires shots) s
  | Api_Measure draw wire => after (Measure E draw wire) s
  end.

(** The simulators a session visits from [s], [s] first. *)
Fixpoint api_history (calls : list ApiCall) (s : Simulator) : list Simulator :=
  match calls with
  | [] => [s]
  | c :: rest => s :: api_history rest (run_api c s)
  end.

Fixpoint run_api_calls (calls : list ApiCall) (s : Simulator) : Simulator :=
  match calls with
  | [] => s
  | c :: rest => run_api_calls rest (run_api c s)
  end.

End Session.

(** * Properties *)

(** ** Running member functions *)

Ltac run :=
  cbv beta delta [bind get put ret call modify RT_FAIL_IF RT_ASSERT] iota.

Lemma bind_Return {S A B} (m : Run S A) (k : A -> Run S B) s a s' :
  m s = (Return a, s') -> bind m k s = k a s'.
Proof. intros H. unfold bind. now rewrite H. Qed.

Lemma bind_Throw {S A B} (m : Run S A) (k : A -> Run S B) s msg s' :
  m s = (Throw msg, s') -> bind m k s = (Throw msg, s').
Proof. intros H. unfold bind. now rewrite H. Qed.

(** ** Tape recording *)

Lemma StartTapeRecording_eq (s : Simulator) :
  StartTapeRecording s =
  if tape_recording s then (Throw AlreadyRecording, s)
  else (Return tt, set_cache_manager CacheManager.empty (set_tape_recording true s)).
Proof. unfold StartTapeRecording. run. destruct s as [? ? [] ? ? ?]; reflexivity. Qed.

Lemma StopTapeRecording_eq (s : Simulator) :
  StopTapeRecording s =
  if tape_recording s then (Return tt, set_tape_recording false s)
  else (Throw NotRecording, s).
Proof. unfold StopTapeRecording. run. destruct s as [? ? [] ? ? ?]; reflexivity. Qed.

(** C7: [StartTapeRecording] throws (AlreadyRecording) when recording is
    active and otherwise switches recording on and clears every tape entry;
    [StopTapeRecording] throws (NotRecording) when recording is not active and
    otherwise switches recording off and keeps the tape as it is. *)
Theorem tape_recording_discipline (s : Simulator) :
  (if tape_recording s
   then StartTapeRecording s = (Throw AlreadyRecording, s)
   else exists s',
       StartTapeRecording s = (Return tt, s')
       /\ tape_recording s' = true
       /\ cache_manager s' = CacheManager.empty
       /\ CacheManagerInfo s' = (0, 0, 0, [], []))
  /\
  (if tape_recording s
   then exists s',
       StopTapeRecording s = (Return tt, s')
       /\ tape_recording s' = false
       /\ cache_manager s' = cache_manager s
   else StopTapeRecording s = (Throw NotRecording, s)).
Proof.
  rewrite StartTapeRecording_eq, StopTapeRecording_eq.
  destruct (tape_recording s) eqn:Hrec; split; try reflexivity.
  - eexists; repeat split.
  - eexists; repeat split.
Qed.

(** Start twice in a row: the second call throws; Stop without a Start
    throws. *)
Example start_twice :
  fst (StartTapeRecording (snd (StartTapeRecording Simulator_new)))
  = Throw AlreadyRecording.
Proof. reflexivity. Qed.

Example stop_without_start :
  fst (StopTapeRecording Simulator_new) = Throw NotRecording.
Proof. reflexivity. Qed.

(** ** Qubit allocation *)

Section QubitManagerFacts.

Import QubitManager.

Lemma AllocateWires_cons (w : nat) (ws : list nat) (qm : t) :
  AllocateWires (w :: ws) qm
  = (next_idx qm :: fst (AllocateWires ws (snd (Allocate w qm))),
     snd (AllocateWires ws (snd (Allocate w qm)))).
Proof. cbn. destruct (AllocateWires ws _); reflexivity. Qed.

Lemma AllocateWires_spec (ws : list nat) (qm : t) :
  fst (AllocateWires ws qm)
  = map (fun i => (next_idx qm + Z.of_nat i)%Z) (seq 0 (length ws))
  /\ next_idx (snd (AllocateWires ws qm)) = (next_idx qm + Z.of_nat (length ws))%Z
  /\ (forall q, (q < next_idx qm)%Z ->
        qubits_map (snd (AllocateWires ws qm)) !! q = qubits_map qm !! q)
  /\ (forall q, (next_idx qm <= q < next_idx qm + Z.of_nat (length ws))%Z ->
        is_Some (qubits_map (snd (AllocateWires ws qm)) !! q))
  /\ (forall q, (next_idx qm + Z.of_nat (length ws) <= q)%Z ->
        qubits_map (snd (AllocateWires ws qm)) !! q = qubits_map qm !! q).
Proof.
  revert qm. induction ws as [|w ws IH]; intros qm.
  - simpl. repeat split; intros; try reflexivity; lia.
  - rewrite AllocateWires_cons. cbn [fst snd].
    set (qm1 := snd (Allocate w qm)).
    destruct (IH qm1) as (Hqs & Hnext & Hlow & Hmid & Hhigh).
    assert (Hn1 : next_idx qm1 = (next_idx qm + 1)%Z) by reflexivity.
    assert (Hm1 : qubits_map qm1 = <[next_idx qm := w]> (qubits_map qm)) by reflexivity.
    cbn [length]. repeat split.
    + cbn [seq map]. f_equal; [lia|].
      rewrite Hqs, <- seq_shift, map_map. apply map_ext. intros i. rewrite Hn1. lia.
    + rewrite Hnext, Hn1. lia.
    + intros q Hq. rewrite Hlow by lia. rewrite Hm1.
      apply lookup_insert_ne. lia.
    + intros q Hq.
      destruct (decide (q = next_idx qm)) as [->|Hne].
      * rewrite Hlow by lia. rewrite Hm1, lookup_insert_eq. eauto.
      * apply Hmid. lia.
    + intros q Hq. rewrite Hhigh by lia. rewrite Hm1.
      apply lookup_insert_ne. lia.
Qed.

Lemma issued_below_empty : issued_below empty.
Proof. intros q w H. unfold empty in H. simpl in H. by rewrite lookup_empty in H. Qed.

Lemma issued_below_Allocate (w : nat) (qm : t) :
  issued_below qm -> issued_below (snd (Allocate w qm)).
Proof.
  intros Hinv q w' H. cbn in H.
  destruct (decide (q = next_idx qm)) as [->|Hne].
  - cbn. lia.
  - rewrite lookup_insert_ne in H by done. apply Hinv in H. cbn. lia.
Qed.

Lemma issued_below_AllocateWires (ws : list nat) (qm : t) :
  issued_below qm -> issued_below (snd (AllocateWires ws qm)).
Proof.
  intros Hinv q w H.
  destruct (AllocateWires_spec ws qm) as (_ & Hnext & Hlow & _ & Hhigh).
  rewrite Hnext.
  destruct (Z_lt_le_dec q (next_idx qm + Z.of_nat (length ws))) as [Hlt|Hge]; [done|].
  rewrite Hhigh in H by done. apply Hinv in H. lia.
Qed.

Lemma issued_below_Release (q : QubitIdType) (qm : t) :
  issued_below qm -> issued_below (snd (Release q qm)).
Proof.
  intros Hinv q' w' H. unfold Release in *.
  destruct (qubits_map qm !! q) as [w|] eqn:Hq; cbn in *.
  - rewrite lookup_fmap in H.
    destruct (delete q (qubits_map qm) !! q') as [w0|] eqn:Hd; [|done].
    apply lookup_delete_Some in Hd as [_ Hd]. by apply Hinv in Hd.
  - by apply Hinv in H.
Qed.

Lemma next_idx_Release (q : QubitIdType) (qm : t) :
  next_idx (snd (Release q qm)) = next_idx qm.
Proof. unfold Release. by destruct (qubits_map qm !! q). Qed.

Lemma issued_below_ReleaseAll (qm : t) : issued_below (ReleaseAll qm).
Proof. intros q w H. cbn in H. by rewrite lookup_empty in H. Qed.

End QubitManagerFacts.

Lemma AllocateQubits_eq (k : nat) (s : Simulator) :
  AllocateQubits k s =
  if k =? 0 then (Return [], s)
  else
    let r := QubitManager.AllocateWires (seq (GetNumQubits s) k) (qubit_manager s) in
    (Return (fst r),
     set_qubit_manager (snd r) (set_device_sv (StateVector_new (GetNumQubits s + k)) s)).
Proof.
  unfold AllocateQubits, QubitManager.AllocateRange, GetNumQubits.
  destruct (k =? 0); [reflexivity|].
  cbn [qubit_manager set_device_sv].
  replace (sv_num_qubits (device_sv s) + k - sv_num_qubits (device_sv s)) with k by lia.
  by destruct (QubitManager.AllocateWires _ _).
Qed.

(** Every call keeps the live ids below the counter and never lowers the
    counter. *)
Lemma run_call_issued (c : QubitCall) (s : Simulator) :
  QubitManager.issued_below (qubit_manager s) ->
  QubitManager.issued_below (qubit_manager (run_call c s))
  /\ (QubitManager.next_idx (qubit_manager s)
       <= QubitManager.next_idx (qubit_manager (run_call c s)))%Z.
Proof.
  intros Hinv. destruct c as [|k|q|]; cbn [run_call].
  - unfold AllocateQubit. cbn. split.
    + by apply (issued_below_Allocate _ (qubit_manager s)).
    + lia.
  - rewrite AllocateQubits_eq. destruct (k =? 0); cbn; [split; [done|lia]|].
    split; [by apply issued_below_AllocateWires|].
    destruct (AllocateWires_spec (seq (GetNumQubits s) k) (qubit_manager s))
      as (_ & -> & _). lia.
  - unfold ReleaseQubit.
    pose proof (issued_below_Release q _ Hinv) as H1.
    pose proof (next_idx_Release q (qubit_manager s)) as H2.
    destruct (QubitManager.Release q (qubit_manager s)) as [r qm]. cbn in *.
    split; [done|lia].
  - cbn. split; [apply issued_below_ReleaseAll|lia].
Qed.

Lemma history_head (calls : list QubitCall) (s : Simulator) :
  s ∈ history calls s.
Proof. destruct calls; cbn; apply elem_of_cons; by left. Qed.

Lemma run_calls_issued (calls : list QubitCall) (s : Simulator) :
  QubitManager.issued_below (qubit_manager s) ->
  QubitManager.issued_below (qubit_manager (run_calls calls s))
  /\ (QubitManager.next_idx (qubit_manager s)
       <= QubitManager.next_idx (qubit_manager (run_calls calls s)))%Z.
Proof.
  revert s. induction calls as [|c calls IH]; intros s Hinv; cbn.
  - split; [done|lia].
  - destruct (run_call_issued c s Hinv) as [Hinv' Hle].
    destruct (IH _ Hinv') as [Hinv'' Hle']. split; [done|lia].
Qed.

Lemma history_issued (calls : list QubitCall) (s s0 : Simulator) :
  QubitManager.issued_below (qubit_manager s) ->
  s0 ∈ history calls s ->
  QubitManager.issued_below (qubit_manager s0)
  /\ (QubitManager.next_idx (qubit_manager s0)
       <= QubitManager.next_idx (qubit_manager (run_calls calls s)))%Z.
Proof.
  revert s. induction calls as [|c calls IH]; intros s Hinv Hin; cbn in *.
  - apply list_elem_of_singleton in Hin as ->. split; [done|lia].
  - destruct (run_call_issued c s Hinv) as [Hinv' Hle].
    apply elem_of_cons in Hin as [Heq|Hin].
    + subst s0. destruct (run_calls_issued calls _ Hinv') as [_ Hle'].
      split; [done|lia].
    + by apply IH.
Qed.

(** After a reset, allocating [k] qubits gives [k] ids and [k] qubits. *)
Example allocate_after_release :
  let s := snd (ReleaseAllQubits (snd (AllocateQubits 3 Simulator_new))) in
  GetNumQubits s = 0
  /\ fst (AllocateQubits 2 s) = Return [3%Z; 4%Z]
  /\ GetNumQubits (snd (AllocateQubits 2 s)) = 2.
Proof. repeat split. Qed.

(** ** Named and matrix operations *)

Section Operations.

Context (E : Engine).

Lemma getDeviceWires_state (wires : list QubitIdType) (s : Simulator) :
  snd (getDeviceWires wires s) = s.
Proof.
  induction wires as [|w ws IH]; [reflexivity|].
  cbn [getDeviceWires]. run.
  destruct (QubitManager.getDeviceId w (qubit_manager s)); [|reflexivity].
  destruct (getDeviceWires ws s) as [[ds|msg] s'] eqn:Hws; cbn in *; congruence.
Qed.

Lemma getDeviceWires_Return (wires : list QubitIdType) (s s' : Simulator) ds :
  getDeviceWires wires s = (Return ds, s') -> s' = s /\ length ds = length wires.
Proof.
  revert ds. induction wires as [|w ws IH]; intros ds.
  - cbn. intros [= <- <-]. done.
  - cbn [getDeviceWires]. run.
    destruct (QubitManager.getDeviceId w (qubit_manager s)); [|discriminate].
    pose proof (getDeviceWires_state ws s) as Hst.
    destruct (getDeviceWires ws s) as [[ds'|msg] s''] eqn:Hws; [|discriminate].
    cbn in Hst. subst s''. intros [= <- <-].
    destruct (IH ds' eq_refl) as [_ Hlen]. cbn. by rewrite Hlen.
Qed.

(** What [NamedOperation] checks before it touches anything: the gate must be
    known, the wire list must not be empty for a gate that has wires, and the
    number of parameters must be the declared one. *)
Lemma NamedOperation_no_wires name params inverse s op_num_wires op_num_params :
  lookup_gates (simulator_gate_info E) name = Return (op_num_wires, op_num_params) ->
  op_num_wires <> 0 ->
  NamedOperation E name params [] inverse s = (Throw InvalidArity_qubits, s).
Proof.
  intros Hlook Hw. unfold NamedOperation. run. rewrite Hlook.
  destruct op_num_wires; [congruence|reflexivity].
Qed.

Lemma NamedOperation_params name params wires inverse s op_num_wires op_num_params :
  lookup_gates (simulator_gate_info E) name = Return (op_num_wires, op_num_params) ->
  length params <> op_num_params ->
  NamedOperation E name params wires inverse s = (Throw InvalidArity_qubits, s)
  \/ NamedOperation E name params wires inverse s = (Throw InvalidArity_params, s).
Proof.
  intros Hlook Hp. unfold NamedOperation. run. rewrite Hlook. cbn [fst snd].
  destruct ((length wires =? 0) && negb (length wires =? op_num_wires));
    [by left|right].
  destruct (Nat.eqb_spec (length params) op_num_params); [congruence|reflexivity].
Qed.

(** With at least one wire and the declared number of parameters the call
    goes on to the kernel, whatever the declared number of wires is. *)
Lemma NamedOperation_applies name params wires inverse s arity dev_wires sv :
  lookup_gates (simulator_gate_info E) name = Return arity ->
  length wires <> 0 ->
  length params = snd arity ->
  getDeviceWires wires s = (Return dev_wires, s) ->
  applyOperation E name dev_wires inverse params (device_sv s) = Return sv ->
  NamedOperation E name params wires inverse s
  = (Return tt,
     if tape_recording s
     then set_cache_manager
            (CacheManager.addOperation name params dev_wires inverse (cache_manager s))
            (set_device_sv sv s)
     else set_device_sv sv s).
Proof.
  intros Hlook Hw Hp Hdev Hker. unfold NamedOperation. run. rewrite Hlook.
  destruct (Nat.eqb_spec (length wires) 0); [done|]. cbn [andb].
  rewrite Hp, Nat.eqb_refl. cbn [negb]. rewrite Hdev, Hker.
  cbn [tape_recording set_device_sv]. by destruct (tape_recording s).
Qed.

End Operations.

(** The arity errors [NamedOperation] does raise: for a gate of the table, a
    call with no wire at all although the gate has wires, or with a parameter
    count that differs from the declared one, throws "Invalid number of
    qubits" or "Invalid number of parameters" and leaves the simulator (state
    vector and tape) as it was. *)
Theorem NamedOperation_arity_error (E : Engine) name params wires inverse s
    op_num_wires op_num_params :
  lookup_gates (simulator_gate_info E) name = Return (op_num_wires, op_num_params) ->
  (wires = [] /\ op_num_wires <> 0) \/ length params <> op_num_params ->
  exists message,
    NamedOperation E name params wires inverse s = (Throw message, s)
    /\ (message = InvalidArity_qubits \/ message = InvalidArity_params).
Proof.
  intros Hlook [[-> Hw]|Hp].
  - exists InvalidArity_qubits. split; [by eapply NamedOperation_no_wires|by left].
  - destruct (NamedOperation_params E name params wires inverse s _ _ Hlook Hp) as [H|H].
    + exists InvalidArity_qubits. split; [done|by left].
    + exists InvalidArity_params. split; [done|by right].
Qed.

Lemma NamedOperation_arity_error_witness :
  exists message,
    NamedOperation (scripted rev_amplitudes [] [] no_jac) "RX" [] [0%Z] false sim_one_qubit
    = (Throw message, sim_one_qubit)
    /\ (message = InvalidArity_qubits \/ message = InvalidArity_params).
Proof.
  apply (NamedOperation_arity_error (scripted rev_amplitudes [] [] no_jac)
           "RX" [] [0%Z] false sim_one_qubit 1 1).
  - reflexivity.
  - right. simpl. lia.
Defined.

(** C1 says that a call whose wire count differs from the declared one fails
    with an arity error and does not apply the operation.  The code compares
    the wire count only for an empty wire list
    ([!wires.size() && wires.size() != op_num_wires]), so for every gate of
    the table and every non-empty list of valid ids of the wrong length (the
    number of parameters being right) no arity check fires: the kernel is
    called on the wrong number of wires, and the outcome of the call is the
    outcome of the kernel.  When the kernel returns, the state vector is its
    result and the call is recorded when recording is on. *)
Theorem NamedOperation_wire_count_not_checked (E : Engine) name params wires inverse s
    op_num_wires op_num_params dev_wires :
  lookup_gates (simulator_gate_info E) name = Return (op_num_wires, op_num_params) ->
  0 < length wires ->
  length wires <> op_num_wires ->
  length params = op_num_params ->
  getDeviceWires wires s = (Return dev_wires, s) ->
  length dev_wires = length wires
  /\ NamedOperation E name params wires inverse s
     = match applyOperation E name dev_wires inverse params (device_sv s) with
       | Return sv =>
           (Return tt,
            if tape_recording s
            then set_cache_manager
                   (CacheManager.addOperation name params dev_wires inverse
                                              (cache_manager s))
                   (set_device_sv sv s)
            else set_device_sv sv s)
       | Throw message => (Throw message, s)
       end.
Proof.
  intros Hlook Hne Hw Hp Hdev.
  split; [by destruct (getDeviceWires_Return wires s s dev_wires Hdev)|].
  unfold NamedOperation. run. rewrite Hlook. cbn [fst snd].
  destruct (Nat.eqb_spec (length wires) 0) as [H0|_]; [lia|]. cbn [andb].
  rewrite Hp, Nat.eqb_refl. cbn [negb]. rewrite Hdev.
  destruct (applyOperation E name dev_wires inverse params (device_sv s)) as [sv|msg];
    [|reflexivity].
  cbn [tape_recording set_device_sv]. by destruct (tape_recording s).
Qed.

(** PauliX is declared with one wire and no parameter; called on the two
    wires of a two-qubit register it returns, and the state vector is the
    result of the scripted kernel. *)
Lemma NamedOperation_wire_count_not_checked_witness :
  lookup_gates scripted_gate_info "PauliX" = Return (1, 0)
  /\ length [0%Z; 1%Z] = 2
  /\ NamedOperation (scripted rev_amplitudes [] [] no_jac) "PauliX" [] [0%Z; 1%Z] false
                    sim_two_qubits
     = (Return tt, set_device_sv (rev_amplitudes (device_sv sim_two_qubits)) sim_two_qubits)
  /\ sv_data (rev_amplitudes (device_sv sim_two_qubits)) = [czero; czero; czero; cone].
Proof.
  split_and!; [reflexivity|reflexivity| |reflexivity].
  destruct (NamedOperation_wire_count_not_checked
              (scripted rev_amplitudes [] [] no_jac) "PauliX" [] [0%Z; 1%Z] false
              sim_two_qubits 1 0 [0; 1]) as [_ Hrun].
  - reflexivity.
  - simpl. lia.
  - simpl. lia.
  - reflexivity.
  - reflexivity.
  - rewrite Hrun. reflexivity.
Defined.

(** ** MatrixOperation and the tape *)

Lemma getNumParams_addOperation name params dev_wires inverse c :
  CacheManager.getNumParams (CacheManager.addOperation name params dev_wires inverse c)
  = CacheManager.getNumParams c + length params.
Proof.
  unfold CacheManager.getNumParams, CacheManager.addOperation.
  cbn [CacheManager.ops_params]. rewrite foldr_app. cbn [foldr].
  induction (CacheManager.ops_params c) as [|p ps IH]; cbn [foldr]; lia.
Qed.

(** A call of [MatrixOperation] that returns went through the wire
    translation and the kernel. *)
Lemma MatrixOperation_Return (E : Engine) matrix wires inverse s s' :
  MatrixOperation E matrix wires inverse s = (Return tt, s') ->
  exists dev_wires sv,
    wires <> []
    /\ getDeviceWires wires s = (Return dev_wires, s)
    /\ applyMultiQubitOp E matrix dev_wires inverse (device_sv s) = Return sv.
Proof.
  unfold MatrixOperation. run.
  destruct wires as [|w ws]; [discriminate|]. cbn [length Nat.eqb].
  pose proof (getDeviceWires_state (w :: ws) s) as Hst.
  destruct (getDeviceWires (w :: ws) s) as [[dev_wires|msg] s1] eqn:Hdev;
    [|discriminate].
  cbn in Hst. subst s1.
  destruct (applyMultiQubitOp E matrix dev_wires inverse (device_sv s)) as [sv|msg]
    eqn:Hker; [|discriminate].
  intros _. by exists dev_wires, sv.
Qed.

(** C10: a [MatrixOperation] that is applied while recording is active
    appends exactly one tape entry, named "MatrixOp", with an empty parameter
    list; the number of recorded parameters does not change, and neither does
    the list of trainable parameters a later [Gradient] passes to the
    kernel. *)
Theorem MatrixOperation_records (E : Engine) matrix wires inverse s dev_wires sv :
  tape_recording s = true ->
  length wires <> 0 ->
  getDeviceWires wires s = (Return dev_wires, s) ->
  applyMultiQubitOp E matrix dev_wires inverse (device_sv s) = Return sv ->
  exists s',
    MatrixOperation E matrix wires inverse s = (Return tt, s')
    /\ CacheManager.ops_names (cache_manager s')
       = CacheManager.ops_names (cache_manager s) ++ ["MatrixOp"%string]
    /\ CacheManager.ops_params (cache_manager s')
       = CacheManager.ops_params (cache_manager s) ++ [[]]
    /\ CacheManager.ops_wires (cache_manager s')
       = CacheManager.ops_wires (cache_manager s) ++ [dev_wires]
    /\ CacheManager.ops_inverses (cache_manager s')
       = CacheManager.ops_inverses (cache_manager s) ++ [inverse]
    /\ CacheManager.obs_keys (cache_manager s') = CacheManager.obs_keys (cache_manager s)
    /\ CacheManager.obs_callees (cache_manager s')
       = CacheManager.obs_callees (cache_manager s)
    /\ CacheManager.getNumOperations (cache_manager s')
       = CacheManager.getNumOperations (cache_manager s) + 1
    /\ CacheManager.getNumParams (cache_manager s')
       = CacheManager.getNumParams (cache_manager s)
    /\ (forall obs_vec,
          jd_trainable_params (jacobian_tape s' [] obs_vec)
          = jd_trainable_params (jacobian_tape s [] obs_vec)).
Proof.
  intros Hrec Hwires Hdev Hker.
  assert (Hnum : CacheManager.getNumParams
                   (CacheManager.addOperation "MatrixOp" [] dev_wires inverse
                                              (cache_manager s))
                 = CacheManager.getNumParams (cache_manager s)).
  { rewrite getNumParams_addOperation. cbn. lia. }
  eexists. split.
  - unfold MatrixOperation. run.
    destruct wires as [|w ws]; [done|]. cbn [length Nat.eqb].
    rewrite Hdev, Hker. cbn [tape_recording set_device_sv]. rewrite Hrec. reflexivity.
  - cbn [cache_manager set_cache_manager set_device_sv]. split_and!; try reflexivity.
    + unfold CacheManager.getNumOperations. cbn. rewrite length_app. reflexivity.
    + exact Hnum.
    + intros obs_vec. unfold jacobian_tape.
      cbn [cache_manager set_cache_manager set_device_sv length Nat.eqb
           jd_trainable_params].
      by rewrite Hnum.
Qed.

Lemma MatrixOperation_records_witness :
  exists s',
    MatrixOperation scripted_plain [cone; czero; czero; cone] [0%Z] true sim_recording
    = (Return tt, s')
    /\ CacheManager.ops_names (cache_manager s') = ["MatrixOp"%string]
    /\ CacheManager.ops_params (cache_manager s') = [[]]
    /\ CacheManager.getNumParams (cache_manager s') = 0.
Proof.
  destruct (MatrixOperation_records scripted_plain [cone; czero; czero; cone] [0%Z] true
              sim_recording [0] (rev_amplitudes (device_sv sim_recording)))
    as (s' & Hrun & Hnames & Hparams & _ & _ & _ & _ & _ & Hnum & _).
  - reflexivity.
  - simpl. lia.
  - vm_compute. reflexivity.
  - reflexivity.
  - exists s'. split_and!; assumption.
Defined.

(** ** Gradient *)

Section GradientFacts.

Context (E : Engine).

(** With an empty Jacobian [Gradient] returns at once: nothing is checked and
    no buffer is written. *)
Lemma Gradient_empty trainParams s gradients :
  jac_size trainParams s = 0 ->
  Gradient E trainParams s gradients = (Return tt, gradients).
Proof. intros H. unfold Gradient. by rewrite H. Qed.

Lemma forallb_Expval_Var (callees : list MeasurementsT.t) :
  MeasurementsT.Var ∈ callees -> forallb (fun m => MeasurementsT.eqb m MeasurementsT.Expval) callees = false.
Proof.
  induction callees as [|m ms IH]; intros Hin.
  - by apply elem_of_nil in Hin.
  - apply elem_of_cons in Hin as [<-|Hin]; [reflexivity|].
    cbn. rewrite IH by done. apply andb_false_r.
Qed.

End GradientFacts.

(** C6, as the code has it: when the Jacobian is not empty (there is at least
    one trainable parameter and one recorded observable), a call whose list
    of output buffers has a length other than the number of recorded
    observables throws InvalidArity and writes no buffer. *)
Theorem Gradient_buffer_count (E : Engine) trainParams s gradients :
  jac_size trainParams s <> 0 ->
  length gradients <> CacheManager.getNumObservables (cache_manager s) ->
  Gradient E trainParams s gradients = (Throw InvalidArity_gradients, gradients)
  /\ is_InvalidArity InvalidArity_gradients.
Proof.
  intros Hjac Hlen. split; [|right; right; reflexivity].
  unfold Gradient.
  destruct (Nat.eqb_spec (jac_size trainParams s) 0); [done|]. run.
  by destruct (Nat.eqb_spec (length gradients)
                 (CacheManager.getNumObservables (cache_manager s))).
Qed.

Lemma Gradient_buffer_count_witness :
  Gradient scripted_plain [] sim_rx_expval [[0%float]]
  = (Throw InvalidArity_gradients, [[0%float]])
  /\ is_InvalidArity InvalidArity_gradients.
Proof.
  apply (Gradient_buffer_count scripted_plain [] sim_rx_expval [[0%float]]).
  - vm_compute. lia.
  - vm_compute. lia.
Defined.

(** C6 as stated fails on tapes that are not empty.  With one recorded
    observable and no recorded parameter, a call without any buffer returns;
    with one recorded parameter and no recorded observable, a call with one
    buffer returns.  In both the number of buffers differs from the number
    of recorded observables. *)
Lemma Gradient_buffer_count_unchecked :
  (CacheManager.getNumObservables (cache_manager sim_expval_no_params) = 1
   /\ CacheManager.getNumParams (cache_manager sim_expval_no_params) = 0
   /\ length ([] : list (list float)) = 0
   /\ jac_size [] sim_expval_no_params = 0
   /\ Gradient scripted_plain [] sim_expval_no_params [] = (Return tt, []))
  /\ (CacheManager.getNumObservables (cache_manager sim_rx_only) = 0
      /\ CacheManager.getNumParams (cache_manager sim_rx_only) = 1
      /\ length [[0%float]] = 1
      /\ jac_size [] sim_rx_only = 0
      /\ Gradient scripted_plain [] sim_rx_only [[0%float]] = (Return tt, [[0%float]])).
Proof. split_and!; reflexivity. Qed.

(** C3, as the code has it: with a Var entry on the tape, a call of
    [Gradient] whose Jacobian is not empty and that passes one buffer per
    recorded observable throws UnsupportedMeasurement and writes no buffer. *)
Theorem Gradient_Var_unsupported (E : Engine) trainParams s gradients :
  MeasurementsT.Var ∈ CacheManager.getObservablesCallees (cache_manager s) ->
  jac_size trainParams s <> 0 ->
  length gradients = CacheManager.getNumObservables (cache_manager s) ->
  Gradient E trainParams s gradients = (Throw UnsupportedMeasurement, gradients).
Proof.
  intros Hvar Hjac Hlen. unfold Gradient.
  destruct (Nat.eqb_spec (jac_size trainParams s) 0); [done|]. run.
  rewrite Hlen, Nat.eqb_refl. cbn [negb].
  by rewrite forallb_Expval_Var.
Qed.

Lemma Gradient_Var_unsupported_witness :
  Gradient scripted_plain [] sim_rx_var [[0%float]]
  = (Throw UnsupportedMeasurement, [[0%float]]).
Proof.
  apply (Gradient_Var_unsupported scripted_plain [] sim_rx_var [[0%float]]).
  - vm_compute. apply list_elem_of_here.
  - vm_compute. lia.
  - reflexivity.
Defined.

(** C3 as stated fails: the tape holds one Var entry and no parameter; the
    Jacobian is empty and [Gradient] returns. *)
Lemma Gradient_Var_returns :
  CacheManager.getObservablesCallees (cache_manager sim_var_no_params) = [MeasurementsT.Var]
  /\ Gradient scripted_plain [] sim_var_no_params [[0%float]] = (Return tt, [[0%float]]).
Proof. split; reflexivity. Qed.

(** *** Distributing the Jacobian *)





(** ** Measure *)

(** Comparison of binary64 numbers: equal numbers are not strictly ordered. *)
Lemma SFcompare_Eq_sym (x y : SpecFloat.spec_float) :
  SpecFloat.SFcompare x y = Some Eq -> SpecFloat.SFcompare y x = Some Eq.
Proof.
  destruct x as [sx|sx| |sx mx ex], y as [sy|sy| |sy my ey]; cbn;
    try destruct sx; try destruct sy; try discriminate; try reflexivity.
  - destruct (Z.compare_spec ex ey) as [->|?|?]; try discriminate.
    intros [= H]. apply (f_equal CompOpp) in H. rewrite CompOpp_involutive in H.
    cbn in H. apply Pos.compare_eq in H as ->.
    by rewrite Z.compare_refl, Pos.compare_cont_refl.
  - destruct (Z.compare_spec ex ey) as [->|?|?]; try discriminate.
    intros [= H]. apply Pos.compare_eq in H as ->.
    by rewrite Z.compare_refl, Pos.compare_cont_refl.
Qed.

Lemma float_tie_not_greater (u p0 : float) :
  (u =? p0)%float = true -> (p0 <? u)%float = false.
Proof.
  rewrite FloatAxioms.eqb_spec, FloatAxioms.ltb_spec.
  unfold SpecFloat.SFeqb, SpecFloat.SFltb.
  destruct (SpecFloat.SFcompare (Prim2SF u) (Prim2SF p0)) as [[| |]|] eqn:H;
    try discriminate.
  intros _. by rewrite (SFcompare_Eq_sym _ _ H).
Qed.

(** *** Which amplitudes are zeroed *)

Lemma lookup_insert_const {A} (l : list A) (i j : nat) (x : A) :
  <[i := x]> l !! j = if decide (i = j) then (fun _ => x) <$> l !! j else l !! j.
Proof.
  rewrite list_lookup_insert.
  destruct (decide (i = j)) as [->|Hne].
  - destruct (decide (j = j /\ j < length l)) as [[_ Hlt]|Hn].
    + destruct (lookup_lt_is_Some_2 l j Hlt) as [y ->]. reflexivity.
    + rewrite lookup_ge_None_2; [reflexivity|]. destruct (decide (j < length l)); [|lia].
      exfalso. by apply Hn.
  - destruct (decide (i = j /\ i < length l)) as [[? _]|_]; [done|reflexivity].
Qed.

Lemma zero_range_lookup (base a n : nat) (state : list complex) (v : nat) :
  fold_left (fun state ids => <[base + ids := czero]> state) (seq a n) state !! v
  = if decide (base + a <= v < base + a + n)
    then (fun _ => czero) <$> state !! v else state !! v.
Proof.
  revert a state. induction n as [|n IH]; intros a state.
  - cbn. destruct (decide _); [lia|reflexivity].
  - cbn [seq fold_left]. rewrite IH, lookup_insert_const.
    destruct (decide (base + a = v)) as [<-|Hne].
    + destruct (decide (base + S a <= base + a < base + S a + n)); [lia|].
      destruct (decide (base + a <= base + a < base + a + S n)); [reflexivity|lia].
    + destruct (decide (base + S a <= v < base + S a + n)),
               (decide (base + a <= v < base + a + S n)); try lia; reflexivity.
Qed.

Lemma section_of_index (stride k a v : nat) :
  0 < stride -> k < 2 ->
  stride * (k + 2 * a) + 0 <= v < stride * (k + 2 * a) + 0 + stride
  <-> (v / stride) mod 2 = k /\ v / stride / 2 = a.
Proof.
  intros Hs Hk.
  pose proof (Nat.div_mod_eq v stride) as Hv.
  pose proof (Nat.mod_upper_bound v stride ltac:(lia)) as Hr.
  pose proof (Nat.div_mod_eq (v / stride) 2) as Hq.
  pose proof (Nat.mod_upper_bound (v / stride) 2 ltac:(lia)) as Hq2.
  split.
  - intros [Hlo Hhi].
    assert (v / stride = k + 2 * a) by nia. lia.
  - intros [Hm Hd].
    assert (v / stride = k + 2 * a) as Heq by lia.
    rewrite Heq in Hv. lia.
Qed.

Lemma zero_half_lookup (stride k a n : nat) (state : list complex) (v : nat) :
  0 < stride -> k < 2 ->
  fold_left
    (fun state idx =>
       fold_left (fun state ids => <[stride * (k + 2 * idx) + ids := czero]> state)
                 (seq 0 stride) state)
    (seq a n) state !! v
  = if decide ((v / stride) mod 2 = k /\ a <= v / stride / 2 < a + n)
    then (fun _ => czero) <$> state !! v else state !! v.
Proof.
  intros Hs Hk. revert a state. induction n as [|n IH]; intros a state.
  - cbn. destruct (decide _); [lia|reflexivity].
  - cbn [seq fold_left]. rewrite IH, zero_range_lookup.
    pose proof (section_of_index stride k a v Hs Hk) as Hsec.
    destruct (decide (stride * (k + 2 * a) + 0 <= v < stride * (k + 2 * a) + 0 + stride))
      as [Hin|Hout].
    + apply Hsec in Hin as [Hm Hd].
      destruct (decide ((v / stride) mod 2 = k /\ S a <= v / stride / 2 < S a + n));
        [lia|].
      destruct (decide ((v / stride) mod 2 = k /\ a <= v / stride / 2 < a + S n));
        [reflexivity|lia].
    + assert (~ ((v / stride) mod 2 = k /\ v / stride / 2 = a)) by (by rewrite <- Hsec).
      destruct (decide ((v / stride) mod 2 = k /\ S a <= v / stride / 2 < S a + n)),
               (decide ((v / stride) mod 2 = k /\ a <= v / stride / 2 < a + S n));
        try lia; reflexivity.
Qed.

(** The zeroing of [Measure]: with [dev_wire < num_qubits], the amplitude at
    index [v < 2 ^ num_qubits] is zeroed exactly when the bit of [dev_wire]
    in [v] (wire 0 is the most significant bit of the index) differs from
    the outcome; every other amplitude is kept. *)
Lemma zeroed_lookup (num_qubits dev_wire : nat) (mres : bool) (state : list complex)
    (v : nat) :
  dev_wire < num_qubits ->
  v < 2 ^ num_qubits ->
  zeroed num_qubits dev_wire mres state !! v
  = if decide ((v / 2 ^ (num_qubits - 1 - dev_wire)) mod 2 = (if mres then 0 else 1))
    then (fun _ => czero) <$> state !! v else state !! v.
Proof.
  intros Hw Hv. unfold zeroed, zero_half.
  replace (num_qubits - (1 + dev_wire)) with (num_qubits - 1 - dev_wire) by lia.
  set (stride := 2 ^ (num_qubits - 1 - dev_wire)).
  assert (Hs : 0 < stride) by (apply Nat.neq_0_lt_0, Nat.pow_nonzero; lia).
  assert (Hpow : 2 ^ num_qubits = stride * 2 ^ (S dev_wire)).
  { unfold stride. rewrite <- Nat.pow_add_r. f_equal. lia. }
  assert (Hhalf : 2 ^ num_qubits / stride / 2 = 2 ^ dev_wire).
  { rewrite Hpow, Nat.mul_comm, Nat.div_mul by lia.
    rewrite Nat.pow_succ_r', Nat.mul_comm, Nat.div_mul by lia. reflexivity. }
  rewrite Hhalf.
  rewrite zero_half_lookup by (try done; destruct mres; lia).
  assert (Hq : v / stride / 2 < 2 ^ dev_wire).
  { apply Nat.Div0.div_lt_upper_bound. apply Nat.Div0.div_lt_upper_bound.
    rewrite Nat.pow_succ_r' in Hpow. lia. }
  destruct (decide ((v / stride) mod 2 = (if mres then 0 else 1)
                    /\ 0 <= v / stride / 2 < 0 + 2 ^ dev_wire)),
           (decide ((v / stride) mod 2 = (if mres then 0 else 1)));
    try reflexivity; lia.
Qed.

Section MeasureFacts.

Context (E : Engine).

Lemma PartialProbs_Return probs wires s out s1 :
  PartialProbs E probs wires s = (Return out, s1) ->
  s1 = s /\ exists dev_wires, getDeviceWires wires s = (Return dev_wires, s).
Proof.
  unfold PartialProbs. run.
  destruct (GetNumQubits s <? length wires); [discriminate|].
  destruct (negb (isValidQubits wires s)); [discriminate|].
  pose proof (getDeviceWires_state wires s) as Hst.
  destruct (getDeviceWires wires s) as [[dev_wires|msg] s2] eqn:Hdev; [|discriminate].
  cbn in Hst. subst s2.
  destruct (negb (length probs =? _)); [discriminate|].
  intros [= _ <-]. split; [reflexivity|by exists dev_wires].
Qed.

Lemma PartialProbs_Throw probs wires s msg s1 :
  PartialProbs E probs wires s = (Throw msg, s1) -> s1 = s.
Proof.
  unfold PartialProbs. run.
  destruct (GetNumQubits s <? length wires); [by intros [= _ <-]|].
  destruct (negb (isValidQubits wires s)); [by intros [= _ <-]|].
  pose proof (getDeviceWires_state wires s) as Hst.
  destruct (getDeviceWires wires s) as [[dev_wires|msg'] s2] eqn:Hdev;
    cbn in Hst; subst s2; [|by intros [= _ <-]].
  destruct (negb (length probs =? _)); by intros [= _ <-].
Qed.

Lemma getDeviceWires_one wire s dev_wires :
  getDeviceWires [wire] s = (Return dev_wires, s) ->
  exists dev_wire,
    dev_wires = [dev_wire]
    /\ QubitManager.getDeviceId wire (qubit_manager s) = Return dev_wire.
Proof.
  cbn [getDeviceWires]. run.
  destruct (QubitManager.getDeviceId wire (qubit_manager s)) as [d|msg]; [|discriminate].
  intros [= <-]. by exists d.
Qed.

(** [Measure] once the probabilities are there: nothing else can throw. *)
Lemma Measure_Return draw wire s probs s1 :
  PartialProbs E (replicate (shl1_32 1) 0%float) [wire] s = (Return probs, s1) ->
  exists dev_wire,
    QubitManager.getDeviceId wire (qubit_manager s) = Return dev_wire
    /\ Measure E draw wire s
       = let mres := (nth 0 probs 0 <? draw)%float in
         (Return (if mres then One else Zero),
          set_device_sv
            (StateVector_from
               (normalize (zeroed (GetNumQubits s) dev_wire mres (sv_data (device_sv s))))
               (2 ^ GetNumQubits s)) s).
Proof.
  intros Hprobs.
  destruct (PartialProbs_Return _ _ _ _ _ Hprobs) as [-> (dev_wires & Hdev)].
  destruct (getDeviceWires_one _ _ _ Hdev) as (dev_wire & -> & Hid).
  exists dev_wire. split; [exact Hid|].
  unfold Measure. cbn [length].
  rewrite (bind_Return _ _ _ _ _ Hprobs).
  unfold bind at 1. unfold get at 1.
  rewrite (bind_Return _ _ _ _ _ Hdev).
  reflexivity.
Qed.

Lemma Measure_Throw draw wire s msg s1 :
  PartialProbs E (replicate (shl1_32 1) 0%float) [wire] s = (Throw msg, s1) ->
  Measure E draw wire s = (Throw msg, s).
Proof.
  intros Hprobs. rewrite (PartialProbs_Throw _ _ _ _ _ Hprobs) in Hprobs.
  unfold Measure. cbn [length]. by rewrite (bind_Throw _ _ _ _ _ Hprobs).
Qed.

End MeasureFacts.

(** C4, as the code has it: once the probabilities are there, [Measure]
    returns; the outcome is 1 exactly when the draw is strictly greater than
    [p0 = probs[0]], and a draw equal to [p0] gives outcome 0. *)
Theorem Measure_outcome (E : Engine) draw wire s probs s1 :
  PartialProbs E (replicate (shl1_32 1) 0%float) [wire] s = (Return probs, s1) ->
  exists r s',
    Measure E draw wire s = (Return r, s')
    /\ (r = One <-> (nth 0 probs 0 <? draw)%float = true)
    /\ ((draw =? nth 0 probs 0)%float = true -> r = Zero).
Proof.
  intros Hprobs.
  destruct (Measure_Return E draw wire s probs s1 Hprobs) as (dev_wire & _ & Hrun).
  cbv zeta in Hrun. eexists _, _. split; [exact Hrun|]. split.
  - destruct (nth 0 probs 0 <? draw)%float; split; congruence.
  - intros Htie. by rewrite (float_tie_not_greater _ _ Htie).
Qed.

Lemma Measure_outcome_witness :
  exists r s',
    Measure (scripted rev_amplitudes [0.5; 0.5]%float [] no_jac) 0.75%float 0%Z sim_half
    = (Return r, s')
    /\ (r = One <-> (nth 0 [0.5; 0.5]%float 0 <? 0.75)%float = true)
    /\ ((0.75 =? nth 0 [0.5; 0.5]%float 0)%float = true -> r = Zero).
Proof.
  apply (Measure_outcome (scripted rev_amplitudes [0.5; 0.5]%float [] no_jac)
           0.75%float 0%Z sim_half [0.5; 0.5]%float sim_half).
  vm_compute. reflexivity.
Defined.

(** C4 as stated fails on the tie: with [p0 = 0.5] and a draw of [0.5] the
    outcome is 0. *)
Lemma Measure_tie_is_Zero :
  fst (PartialProbs (scripted rev_amplitudes [0.5; 0.5]%float [] no_jac)
                    (replicate (shl1_32 1) 0%float) [0%Z] sim_half)
  = Return [0.5; 0.5]%float
  /\ (0.5 =? 0.5)%float = true
  /\ fst (Measure (scripted rev_amplitudes [0.5; 0.5]%float [] no_jac) 0.5%float 0%Z
                  sim_half)
     = Return Zero.
Proof. split_and!; vm_compute; reflexivity. Qed.

(** C5, as the code has it: [Measure] has no guard on the remaining mass.
    It throws only what [PartialProbs] throws; otherwise it returns, and the
    new amplitudes are the zeroed ones, each divided by the square root of
    their total mass, also when that mass is zero (the divisor is then 0). *)
Theorem Measure_no_renormalization_guard (E : Engine) draw wire s :
  match PartialProbs E (replicate (shl1_32 1) 0%float) [wire] s with
  | (Throw message, _) => Measure E draw wire s = (Throw message, s)
  | (Return probs, _) =>
      exists dev_wire r s',
        QubitManager.getDeviceId wire (qubit_manager s) = Return dev_wire
        /\ Measure E draw wire s = (Return r, s')
        /\ let z := zeroed (GetNumQubits s) dev_wire (nth 0 probs 0 <? draw)%float
                           (sv_data (device_sv s)) in
           sv_data (device_sv s') = map (cdiv (PrimFloat.sqrt (total_mass z))) z
           /\ (total_mass z = 0%float -> sv_data (device_sv s') = map (cdiv 0%float) z)
  end.
Proof.
  destruct (PartialProbs E (replicate (shl1_32 1) 0%float) [wire] s)
    as [[probs|message] s1] eqn:Hprobs.
  - destruct (Measure_Return E draw wire s probs s1 Hprobs) as (dev_wire & Hid & Hrun).
    cbv zeta in Hrun. exists dev_wire. eexists _, _.
    split; [exact Hid|]. split; [exact Hrun|].
    cbv zeta. cbn [device_sv set_device_sv StateVector_from sv_data].
    unfold normalize. split; [reflexivity|].
    intros ->. reflexivity.
  - by apply Measure_Throw with s1.
Qed.

(** C5 as stated fails: the qubit is in [|1>], so [p0 = 0]; the draw 0 is not
    greater, the outcome is 0, the amplitude of [|1>] is zeroed, nothing is
    left, and [Measure] returns after dividing by the zero norm. *)
Lemma Measure_divides_by_zero_norm :
  sv_data (device_sv sim_flipped) = [czero; cone]
  /\ total_mass (zeroed 1 0 false [czero; cone]) = 0%float
  /\ Measure (scripted rev_amplitudes [0; 1]%float [] no_jac) 0%float 0%Z sim_flipped
     = (Return Zero,
        set_device_sv (mkStateVector 1 [(nan, nan); (nan, nan)]%float) sim_flipped).
Proof. split_and!; vm_compute; reflexivity. Qed.

(** ** Counts *)

Lemma bitset_set_testbit (basisState : Z) (idx i : nat) (bit : bool) :
  Z.testbit (bitset_set basisState idx bit) (Z.of_nat i)
  = if decide (i = idx) then bit else Z.testbit basisState (Z.of_nat i).
Proof.
  unfold bitset_set. destruct bit.
  - rewrite Z.setbit_eqb by lia.
    destruct (decide (i = idx)) as [->|Hne].
    + by rewrite Z.eqb_refl.
    + destruct (Z.eqb_spec (Z.of_nat idx) (Z.of_nat i)); [lia|reflexivity].
  - rewrite Z.clearbit_eqb.
    destruct (decide (i = idx)) as [->|Hne].
    + rewrite Z.eqb_refl. apply andb_false_r.
    + destruct (Z.eqb_spec (Z.of_nat idx) (Z.of_nat i)); [lia|apply andb_true_r].
Qed.

(** The bits the inner loop leaves in the bitset: the wire queried at
    position [j] lands on bit [idx + j]. *)
Lemma gather_bits_testbit (li_samples : list nat) (numQubits shot : nat)
    (wires : list nat) (idx : nat) (basisState : Z) (i : nat) :
  Z.testbit (gather_bits li_samples numQubits shot wires idx basisState) (Z.of_nat i)
  = match wires !! (i - idx) with
    | Some wire =>
        if decide (idx <= i) then sample_bit li_samples numQubits shot wire
        else Z.testbit basisState (Z.of_nat i)
    | None => Z.testbit basisState (Z.of_nat i)
    end.
Proof.
  revert idx basisState. induction wires as [|wire rest IH]; intros idx basisState.
  - reflexivity.
  - cbn [gather_bits]. rewrite IH, bitset_set_testbit.
    destruct (decide (idx <= i)) as [Hle|Hgt].
    + destruct (decide (i = idx)) as [->|Hne].
      * replace (idx - S idx) with 0 by lia. replace (idx - idx) with 0 by lia.
        cbn [lookup list_lookup].
        destruct rest; cbn; destruct (decide (S idx <= idx)); try lia; reflexivity.
      * replace (i - idx) with (S (i - S idx)) by lia. cbn [lookup list_lookup].
        destruct (rest !! (i - S idx)); [|reflexivity].
        destruct (decide (S idx <= i)); [reflexivity|lia].
    + replace (i - S idx) with 0 by lia. replace (i - idx) with 0 by lia.
      cbn [lookup list_lookup].
      destruct (decide (i = idx)); [lia|].
      destruct rest; cbn; [reflexivity|].
      destruct (decide (S idx <= i)); [lia|reflexivity].
Qed.

(** What the code does: bit [j] of the bin of a shot is the bit sampled for
    the wire queried at position [j]; the first queried wire is the least
    significant bit. *)
Lemma shot_bin_testbit (li_samples : list nat) (numQubits shot : nat)
    (wires : list nat) (j wire : nat) :
  wires !! j = Some wire ->
  Z.testbit (Z.of_nat (shot_bin li_samples numQubits shot wires)) (Z.of_nat j)
  = sample_bit li_samples numQubits shot wire.
Proof.
  intros Hj. unfold shot_bin.
  assert (Hnonneg : forall ws idx bs,
             (0 <= bs)%Z -> (0 <= gather_bits li_samples numQubits shot ws idx bs)%Z).
  { induction ws as [|w ws IH]; intros idx bs Hbs; [done|].
    cbn [gather_bits]. apply IH. unfold bitset_set.
    destruct (negb _).
    - rewrite Z.setbit_spec'. apply Z.lor_nonneg. split; [done|].
      apply Z.pow_nonneg. lia.
    - rewrite Z.clearbit_spec'. apply Z.ldiff_nonneg. by left. }
  rewrite Z2Nat.id by (apply Hnonneg; lia).
  rewrite gather_bits_testbit. rewrite Nat.sub_0_r, Hj.
  destruct (decide (0 <= j)); [reflexivity|lia].
Qed.

(** The eigenvalue buffer after [Counts]: the integers from 0 on, as many as
    the buffer has entries, that is [1U << numQubits]. *)
Lemma shl1_32_small (n : nat) : n < 32 -> shl1_32 n = 2 ^ n.
Proof.
  intros Hn. unfold shl1_32. rewrite Z.shiftl_1_l.
  rewrite Z.mod_small.
  - rewrite <- (Nat2Z.id (2 ^ n)). f_equal. rewrite Nat2Z.inj_pow. reflexivity.
  - split; [apply Z.pow_nonneg; lia|].
    apply Z.pow_lt_mono_r; lia.
Qed.

(** The eigenvalue buffer after [Counts] on fewer than 32 qubits: the
    integers [0 .. 2^n - 1] in order. *)
Lemma Counts_eigvals (E : Engine) eigvals counts shots s eigvals' counts' s' :
  GetNumQubits s < 32 ->
  Counts E eigvals counts shots s = (Return (eigvals', counts'), s') ->
  eigvals' = map double_of_nat (seq 0 (2 ^ GetNumQubits s))
  /\ length counts' = 2 ^ GetNumQubits s.
Proof.
  intros Hn. unfold Counts. run. rewrite shl1_32_small by done.
  destruct (Nat.eqb_spec (length eigvals) (2 ^ GetNumQubits s)) as [He|];
    [|discriminate].
  destruct (Nat.eqb_spec (length counts) (2 ^ GetNumQubits s)) as [Hc|];
    [|discriminate].
  cbn [negb orb]. intros [= <- <- <-]. split.
  - unfold iota. by rewrite He.
  - unfold count_shots, fill_zero.
    assert (Hlen : forall shots_list (cs : list Z),
               length (fold_left
                         (fun counts shot =>
                            alter (fun c => (c + 1)%Z)
                                  (shot_bin (generate_samples E (device_sv s) shots)
                                            (GetNumQubits s) shot
                                            (seq 0 (GetNumQubits s))) counts)
                         shots_list cs) = length cs).
    { induction shots_list as [|x xs IH]; intros cs; [done|].
      cbn [fold_left]. rewrite IH. apply length_alter. }
    by rewrite Hlen, length_replicate.
Qed.

(** The same for [PartialCounts] over fewer than 32 wires. *)
Lemma PartialCounts_eigvals (E : Engine) eigvals counts wires shots s
    eigvals' counts' s' :
  length wires < 32 ->
  PartialCounts E eigvals counts wires shots s = (Return (eigvals', counts'), s') ->
  eigvals' = map double_of_nat (seq 0 (2 ^ length wires)).
Proof.
  intros Hn. unfold PartialCounts. run. rewrite shl1_32_small by done.
  destruct (GetNumQubits s <? length wires); [discriminate|].
  destruct (negb (isValidQubits wires s)); [discriminate|].
  destruct (Nat.eqb_spec (length eigvals) (2 ^ length wires)) as [He|];
    [|discriminate].
  destruct (negb (length counts =? 2 ^ length wires)); [discriminate|].
  cbn [negb orb].
  destruct (getDeviceWires wires s) as [[dev_wires|msg] s1]; [|discriminate].
  intros [= <- _ _]. unfold iota. by rewrite He.
Qed.

(** C2 on a concrete run: two qubits, one shot, wire 0 sampled as 1 and
    wire 1 as 0.  Read with the first queried wire as the most significant
    bit the bin is 2; [Counts] and [PartialCounts] count the shot in bin 1.
    The eigenvalue buffer holds 0, 1, 2, 3. *)
Theorem Counts_first_wire_is_lowest_bit :
  sample_bit [1; 0] 2 0 0 = true
  /\ sample_bit [1; 0] 2 0 1 = false
  /\ big_endian_bin [true; false] = 2
  /\ shot_bin [1; 0] 2 0 [0; 1] = 1
  /\ Counts (scripted rev_amplitudes [] [1; 0] no_jac)
            [0; 0; 0; 0]%float [0; 0; 0; 0]%Z 1 sim_two_qubits
     = (Return ([0; 1; 2; 3]%float, [0; 1; 0; 0]%Z), sim_two_qubits)
  /\ PartialCounts (scripted rev_amplitudes [] [1; 0] no_jac)
                   [0; 0; 0; 0]%float [0; 0; 0; 0]%Z [0%Z; 1%Z] 1 sim_two_qubits
     = (Return ([0; 1; 2; 3]%float, [0; 1; 0; 0]%Z), sim_two_qubits).
Proof. split_and!; vm_compute; reflexivity. Qed.

(** ** Qubit ids over a whole session *)

(** One step of a tactic that runs a member function to its end: a wire
    translation leaves the simulator alone, and every test is split. *)
(** [NamedOperation] either throws and leaves the simulator as it was, or
    went through the wire translation and the kernel. *)
Lemma NamedOperation_cases (E : Engine) name params wires inverse s :
  (exists message, NamedOperation E name params wires inverse s = (Throw message, s))
  \/ (exists dev_wires sv,
         NamedOperation E name params wires inverse s
         = (Return tt,
            if tape_recording s
            then set_cache_manager
                   (CacheManager.addOperation name params dev_wires inverse
                                              (cache_manager s))
                   (set_device_sv sv s)
            else set_device_sv sv s)).
Proof.
  unfold NamedOperation. run.
  destruct (lookup_gates (simulator_gate_info E) name) as [arity|msg]; [|left; eauto].
  destruct ((length wires =? 0) && negb (length wires =? fst arity)); [left; eauto|].
  destruct (negb (length params =? snd arity)); [left; eauto|].
  pose proof (getDeviceWires_state wires s) as Hst.
  destruct (getDeviceWires wires s) as [[dev_wires|msg] s1]; cbn in Hst; subst s1;
    [|left; eauto].
  destruct (applyOperation E name dev_wires inverse params (device_sv s)) as [sv|msg];
    [|left; eauto].
  right. exists dev_wires, sv. cbn [tape_recording set_device_sv].
  by destruct (tape_recording s).
Qed.

Lemma MatrixOperation_cases (E : Engine) matrix wires inverse s :
  (exists message, MatrixOperation E matrix wires inverse s = (Throw message, s))
  \/ (exists dev_wires sv,
         MatrixOperation E matrix wires inverse s
         = (Return tt,
            if tape_recording s
            then set_cache_manager
                   (CacheManager.addOperation "MatrixOp" [] dev_wires inverse
                                              (cache_manager s))
                   (set_device_sv sv s)
            else set_device_sv sv s)).
Proof.
  unfold MatrixOperation. run.
  destruct (length wires =? 0); [left; eauto|].
  pose proof (getDeviceWires_state wires s) as Hst.
  destruct (getDeviceWires wires s) as [[dev_wires|msg] s1]; cbn in Hst; subst s1;
    [|left; eauto].
  destruct (applyMultiQubitOp E matrix dev_wires inverse (device_sv s)) as [sv|msg];
    [|left; eauto].
  right. exists dev_wires, sv. cbn [tape_recording set_device_sv].
  by destruct (tape_recording s).
Qed.

Lemma apply_call_cases (E : Engine) (c : OperationCall) (s : Simulator) :
  (exists message, apply_call E c s = (Throw message, s))
  \/ (exists dev_wires inverse sv,
         apply_call E c s
         = (Return tt,
            if tape_recording s
            then set_cache_manager
                   (CacheManager.addOperation (call_name c) (call_params c)
                                              dev_wires inverse (cache_manager s))
                   (set_device_sv sv s)
            else set_device_sv sv s)).
Proof.
  destruct c as [name params wires inverse|matrix wires inverse]; cbn.
  - destruct (NamedOperation_cases E name params wires inverse s) as [H|(d & sv & H)];
      [by left|right; eauto].
  - destruct (MatrixOperation_cases E matrix wires inverse s) as [H|(d & sv & H)];
      [by left|right; eauto].
Qed.

Ltac frame_step :=
  match goal with
  | |- context [getDeviceWires ?w ?s] =>
      let H := fresh "Hst" in
      pose proof (getDeviceWires_state w s) as H;
      destruct (getDeviceWires w s) as [[?|?] ?]; cbn [snd] in H; subst
  | |- context [if ?b then _ else _] => destruct b
  | |- context [match ?x with _ => _ end] => destruct x
  end.

Section SessionFacts.

Context (E : Engine).
Variable probs_all : StateVectorT -> list float.
Variable probs_all_shots : StateVectorT -> nat -> list float.

Lemma StartTapeRecording_qubit_manager (s : Simulator) :
  qubit_manager (after StartTapeRecording s) = qubit_manager s.
Proof. unfold after. rewrite StartTapeRecording_eq. by destruct (tape_recording s). Qed.

Lemma StopTapeRecording_qubit_manager (s : Simulator) :
  qubit_manager (after StopTapeRecording s) = qubit_manager s.
Proof. unfold after. rewrite StopTapeRecording_eq. by destruct (tape_recording s). Qed.

Lemma apply_call_qubit_manager (c : OperationCall) (s : Simulator) :
  qubit_manager (after (apply_call E c) s) = qubit_manager s.
Proof.
  unfold after.
  destruct (apply_call_cases E c s) as [[msg ->]|(d & inv & sv & ->)]; [reflexivity|].
  by destruct (tape_recording s).
Qed.

Lemma Observable_qubit_manager id matrix wires (s : Simulator) :
  qubit_manager (after (Observable id matrix wires) s) = qubit_manager s.
Proof. unfold after, Observable. run. repeat frame_step; reflexivity. Qed.

Lemma TensorObservable_qubit_manager obs (s : Simulator) :
  qubit_manager (after (TensorObservable obs) s) = qubit_manager s.
Proof. unfold after, TensorObservable. run. repeat frame_step; reflexivity. Qed.

Lemma HamiltonianObservable_qubit_manager coeffs obs (s : Simulator) :
  qubit_manager (after (HamiltonianObservable coeffs obs) s) = qubit_manager s.
Proof. unfold after, HamiltonianObservable. run. repeat frame_step; reflexivity. Qed.

Lemma Expval_qubit_manager obsKey (s : Simulator) :
  qubit_manager (after (Expval E obsKey) s) = qubit_manager s.
Proof. unfold after, Expval. run. repeat frame_step; reflexivity. Qed.

Lemma Var_qubit_manager obsKey (s : Simulator) :
  qubit_manager (after (Var E obsKey) s) = qubit_manager s.
Proof. unfold after, Var. run. repeat frame_step; reflexivity. Qed.

(** The retrieval functions leave the whole simulator as it was. *)
Lemma State_simulator state (s : Simulator) : after (State state) s = s.
Proof. unfold after, State. run. repeat frame_step; reflexivity. Qed.

Lemma Probs_simulator probs (s : Simulator) :
  after (Probs probs_all probs_all_shots probs) s = s.
Proof. unfold after, Probs. run. repeat frame_step; reflexivity. Qed.

Lemma PartialProbs_simulator probs wires (s : Simulator) :
  after (PartialProbs E probs wires) s = s.
Proof. unfold after, PartialProbs. run. repeat frame_step; reflexivity. Qed.

Lemma Sample_simulator samples shots (s : Simulator) :
  after (Sample E samples shots) s = s.
Proof. unfold after, Sample. run. repeat frame_step; reflexivity. Qed.

Lemma PartialSample_simulator samples wires shots (s : Simulator) :
  after (PartialSample E samples wires shots) s = s.
Proof. unfold after, PartialSample. run. repeat frame_step; reflexivity. Qed.

Lemma Counts_simulator eigvals counts shots (s : Simulator) :
  after (Counts E eigvals counts shots) s = s.
Proof. unfold after, Counts. run. repeat frame_step; reflexivity. Qed.

Lemma PartialCounts_simulator eigvals counts wires shots (s : Simulator) :
  after (PartialCounts E eigvals counts wires shots) s = s.
Proof. unfold after, PartialCounts. run. repeat frame_step; reflexivity. Qed.

Lemma Measure_qubit_manager draw wire (s : Simulator) :
  qubit_manager (after (Measure E draw wire) s) = qubit_manager s.
Proof.
  unfold after.
  destruct (PartialProbs E (replicate (shl1_32 1) 0%float) [wire] s)
    as [[probs|msg] s1] eqn:Hprobs.
  - destruct (Measure_Return E draw wire s probs s1 Hprobs) as (d & _ & ->).
    reflexivity.
  - by rewrite (Measure_Throw E draw wire s msg s1 Hprobs).
Qed.

(** Only the four functions of the qubit register change the qubit manager. *)
Lemma run_api_qubit_manager (c : ApiCall) (s : Simulator) :
  match c with
  | Api_Qubit c => run_api E probs_all probs_all_shots (Api_Qubit c) s = run_call c s
  | _ => qubit_manager (run_api E probs_all probs_all_shots c s) = qubit_manager s
  end.
Proof.
  destruct c; cbn [run_api];
    rewrite ?State_simulator, ?Probs_simulator, ?PartialProbs_simulator,
      ?Sample_simulator, ?PartialSample_simulator, ?Counts_simulator,
      ?PartialCounts_simulator;
    first [ reflexivity
          | apply StartTapeRecording_qubit_manager
          | apply StopTapeRecording_qubit_manager
          | apply apply_call_qubit_manager
          | apply Observable_qubit_manager
          | apply TensorObservable_qubit_manager
          | apply HamiltonianObservable_qubit_manager
          | apply Expval_qubit_manager
          | apply Var_qubit_manager
          | apply Measure_qubit_manager ].
Qed.

(** Every call of a session keeps the live ids below the counter and never
    lowers the counter. *)
Lemma run_api_issued (c : ApiCall) (s : Simulator) :
  QubitManager.issued_below (qubit_manager s) ->
  QubitManager.issued_below (qubit_manager (run_api E probs_all probs_all_shots c s))
  /\ (QubitManager.next_idx (qubit_manager s)
       <= QubitManager.next_idx
            (qubit_manager (run_api E probs_all probs_all_shots c s)))%Z.
Proof.
  intros Hinv. pose proof (run_api_qubit_manager c s) as Hqm.
  destruct c; try (rewrite Hqm; split; [exact Hinv|lia]).
  by apply run_call_issued.
Qed.

Lemma run_api_calls_issued (calls : list ApiCall) (s : Simulator) :
  QubitManager.issued_below (qubit_manager s) ->
  QubitManager.issued_below
    (qubit_manager (run_api_calls E probs_all probs_all_shots calls s))
  /\ (QubitManager.next_idx (qubit_manager s)
       <= QubitManager.next_idx
            (qubit_manager (run_api_calls E probs_all probs_all_shots calls s)))%Z.
Proof.
  revert s. induction calls as [|c calls IH]; intros s Hinv; cbn [run_api_calls].
  - split; [done|lia].
  - destruct (run_api_issued c s Hinv) as [Hinv' Hle].
    destruct (IH _ Hinv') as [Hinv'' Hle']. split; [done|lia].
Qed.

Lemma api_history_issued (calls : list ApiCall) (s s0 : Simulator) :
  QubitManager.issued_below (qubit_manager s) ->
  s0 ∈ api_history E probs_all probs_all_shots calls s ->
  QubitManager.issued_below (qubit_manager s0)
  /\ (QubitManager.next_idx (qubit_manager s0)
       <= QubitManager.next_idx
            (qubit_manager (run_api_calls E probs_all probs_all_shots calls s)))%Z.
Proof.
  revert s. induction calls as [|c calls IH]; intros s Hinv Hin;
    cbn [api_history run_api_calls] in *.
  - apply list_elem_of_singleton in Hin as ->. split; [done|lia].
  - destruct (run_api_issued c s Hinv) as [Hinv' Hle].
    apply elem_of_cons in Hin as [Heq|Hin].
    + subst s0. destruct (run_api_calls_issued calls _ Hinv') as [_ Hle'].
      split; [done|lia].
    + by apply IH.
Qed.

End SessionFacts.

(** Freshness does not depend on the wires handed to the manager: for any
    list of wires, the ids issued are as many as the wires, from the counter
    on, and none of them is live in a manager whose live ids are below its
    counter and whose counter is not beyond the one of the call. *)
Lemma AllocateWires_fresh (ws : list nat) (qm qm0 : QubitManager.t) (q : QubitIdType) :
  QubitManager.issued_below qm0 ->
  (QubitManager.next_idx qm0 <= QubitManager.next_idx qm)%Z ->
  q ∈ fst (QubitManager.AllocateWires ws qm) ->
  length (fst (QubitManager.AllocateWires ws qm)) = length ws
  /\ QubitManager.qubits_map qm0 !! q = None.
Proof.
  intros Hinv Hle Hq.
  destruct (AllocateWires_spec ws qm) as (Hqs & _).
  split; [by rewrite Hqs, length_map, length_seq|].
  rewrite Hqs in Hq. apply list_elem_of_fmap in Hq as (i & -> & Hi).
  destruct (QubitManager.qubits_map qm0 !! _) as [w|] eqn:Hw; [|reflexivity].
  apply Hinv in Hw. lia.
Qed.

(** C8: [AllocateQubits(k)] returns [k] ids and grows the qubit count by
    exactly [k]; the ids are pairwise distinct and live afterwards, and they
    are the [k] ids from the counter of the qubit manager on.  They were
    never live before: not in the simulator of the call, and in no simulator
    of the session that led to it from a new simulator, whatever member
    functions the session called (qubit calls, recording, shots, gates,
    observables, measurements, retrievals) and whether they returned or
    threw.  More generally they are live in no simulator whose live ids are
    below its counter and whose counter is not beyond the one of the call.
    [AllocateQubits(0)] returns the empty sequence and leaves the simulator
    as it is; after [ReleaseAllQubits], [GetNumQubits()] is 0. *)
Theorem AllocateQubits_fresh (s : Simulator) (k : nat) :
  (exists qs s',
      AllocateQubits k s = (Return qs, s')
      /\ length qs = k
      /\ GetNumQubits s' = GetNumQubits s + k
      /\ NoDup qs
      /\ (forall q, q ∈ qs -> is_live q s')
      /\ qs = map (fun i => (QubitManager.next_idx (qubit_manager s) + Z.of_nat i)%Z)
                  (seq 0 k)
      /\ (forall s0,
            QubitManager.issued_below (qubit_manager s0) ->
            (QubitManager.next_idx (qubit_manager s0)
             <= QubitManager.next_idx (qubit_manager s))%Z ->
            forall q, q ∈ qs -> ~ is_live q s0)
      /\ (forall E probs_all probs_all_shots calls,
            s = run_api_calls E probs_all probs_all_shots calls Simulator_new ->
            forall q s0,
              q ∈ qs ->
              s0 ∈ api_history E probs_all probs_all_shots calls Simulator_new ->
              ~ is_live q s0)
      /\ (forall calls, s = run_calls calls Simulator_new ->
            forall q s0, q ∈ qs -> s0 ∈ history calls Simulator_new ->
                         ~ is_live q s0))
  /\ AllocateQubits 0 s = (Return [], s)
  /\ GetNumQubits (snd (ReleaseAllQubits s)) = 0.
Proof.
  split; [|split; reflexivity].
  rewrite AllocateQubits_eq.
  destruct (Nat.eqb_spec k 0) as [->|Hk].
  - exists [], s. split_and!; try done.
    + constructor.
    + intros q Hq. by apply elem_of_nil in Hq.
    + intros s0 _ _ q Hq. by apply elem_of_nil in Hq.
    + intros E pa pas calls _ q s0 Hq. by apply elem_of_nil in Hq.
    + intros calls _ q s0 Hq. by apply elem_of_nil in Hq.
  - cbv zeta. eexists _, _. split; [reflexivity|].
    destruct (AllocateWires_spec (seq (GetNumQubits s) k) (qubit_manager s))
      as (Hqs & Hnext & Hlow & Hmid & Hhigh).
    rewrite length_seq in *.
    assert (Hmem : forall q, q ∈ fst (QubitManager.AllocateWires
                                         (seq (GetNumQubits s) k) (qubit_manager s)) ->
                   (QubitManager.next_idx (qubit_manager s) <= q
                    < QubitManager.next_idx (qubit_manager s) + Z.of_nat k)%Z).
    { intros q Hq. rewrite Hqs in Hq.
      apply list_elem_of_fmap in Hq as (i & -> & Hi).
      apply elem_of_seq in Hi. lia. }
    assert (Hfresh : forall s0,
               QubitManager.issued_below (qubit_manager s0) ->
               (QubitManager.next_idx (qubit_manager s0)
                <= QubitManager.next_idx (qubit_manager s))%Z ->
               forall q, q ∈ fst (QubitManager.AllocateWires
                                     (seq (GetNumQubits s) k) (qubit_manager s)) ->
                         ~ is_live q s0).
    { intros s0 Hinv Hle q Hq [w Hw]. apply Hinv in Hw. apply Hmem in Hq. lia. }
    split_and!.
    + rewrite Hqs. by rewrite length_map, length_seq.
    + reflexivity.
    + rewrite Hqs. apply NoDup_fmap_2; [intros i j; lia|apply NoDup_seq].
    + intros q Hq. apply Hmid. by apply Hmem.
    + exact Hqs.
    + exact Hfresh.
    + intros E pa pas calls -> q s0 Hq Hin.
      destruct (api_history_issued E pa pas calls Simulator_new s0
                  issued_below_empty Hin) as [Hinv Hle].
      by apply (Hfresh s0 Hinv Hle).
    + intros calls -> q s0 Hq Hin.
      destruct (history_issued calls Simulator_new s0 issued_below_empty Hin)
        as [Hinv Hle].
      by apply (Hfresh s0 Hinv Hle).
Qed.

(** A session with recording, a gate and a release: the qubit 0 is released
    and never handed out again, also after the tape was started and PauliX
    applied. *)
Example allocate_in_session :
  let calls := [Api_Qubit (Call_AllocateQubits 2);
                Api_StartTapeRecording;
                Api_Operation (Call_NamedOperation "PauliX" [] [0%Z] false);
                Api_Qubit (Call_ReleaseQubit 0%Z);
                Api_Expval 7] in
  let s := run_api_calls scripted_plain (fun _ => []) (fun _ _ => []) calls
                         Simulator_new in
  tape_recording s = true
  /\ CacheManager.getOperationsNames (cache_manager s) = ["PauliX"%string]
  /\ fst (AllocateQubits 2 s) = Return [2%Z; 3%Z].
Proof. repeat split. Qed.

(** * Further properties of the simulator *)

(** ** Histograms *)

Lemma gather_bits_nonneg (li_samples : list nat) (numQubits shot : nat)
    (wires : list nat) (idx : nat) (basisState : Z) :
  (0 <= basisState)%Z ->
  (0 <= gather_bits li_samples numQubits shot wires idx basisState)%Z.
Proof.
  revert idx basisState. induction wires as [|w ws IH]; intros idx bs Hbs; [done|].
  cbn [gather_bits]. apply IH. unfold bitset_set.
  destruct (negb _).
  - rewrite Z.setbit_spec'. apply Z.lor_nonneg. split; [done|].
    apply Z.pow_nonneg. lia.
  - rewrite Z.clearbit_spec'. apply Z.ldiff_nonneg. by left.
Qed.

(** A shot of [k] gathered bits falls into one of the bins [0 .. 2^k - 1]. *)
Lemma shot_bin_bound (li_samples : list nat) (numQubits shot : nat) (wires : list nat) :
  shot_bin li_samples numQubits shot wires < 2 ^ length wires.
Proof.
  unfold shot_bin.
  set (a := gather_bits li_samples numQubits shot wires 0 0%Z).
  assert (Ha : (0 <= a)%Z) by (apply gather_bits_nonneg; lia).
  assert (Hhigh : forall i, length wires <= i -> Z.testbit a (Z.of_nat i) = false).
  { intros i Hi. unfold a. rewrite gather_bits_testbit.
    rewrite Nat.sub_0_r, lookup_ge_None_2 by lia. apply Z.testbit_0_l. }
  assert (Hlt : (a < 2 ^ Z.of_nat (length wires))%Z).
  { destruct (Z_lt_le_dec a (2 ^ Z.of_nat (length wires))) as [|Hge]; [done|].
    exfalso.
    assert (Hpos : (0 < a)%Z).
    { pose proof (Z.pow_pos_nonneg 2 (Z.of_nat (length wires))). lia. }
    pose proof (Z.bit_log2 a Hpos) as Hbit.
    assert (Hlog : (Z.of_nat (length wires) <= Z.log2 a)%Z).
    { apply Z.log2_le_pow2; [done|done]. }
    rewrite <- (Z2Nat.id (Z.log2 a)) in Hbit by lia.
    rewrite Hhigh in Hbit by lia. discriminate. }
  apply Nat2Z.inj_lt. rewrite Z2Nat.id by done.
  rewrite Nat2Z.inj_pow. exact Hlt.
Qed.

Lemma count_shots_lookup (bin : nat -> nat) (shot_list : list nat) (counts : list Z)
    (b : nat) :
  fold_left (fun counts shot => alter (fun c => (c + 1)%Z) (bin shot) counts)
            shot_list counts !! b
  = (fun c => (c + Z.of_nat (length (filter (fun shot => bin shot = b) shot_list)))%Z)
      <$> counts !! b.
Proof.
  revert counts. induction shot_list as [|x xs IH]; intros counts.
  - cbn [fold_left]. rewrite filter_nil.
    destruct (counts !! b); cbn; [f_equal; lia|reflexivity].
  - cbn [fold_left]. rewrite IH.
    destruct (decide (bin x = b)) as [Hb|Hb].
    + rewrite filter_cons_True by done. subst b.
      rewrite list_lookup_alter_eq.
      destruct (counts !! bin x); [|reflexivity].
      cbn [fmap option_fmap option_map length]. f_equal. lia.
    + rewrite filter_cons_False by done.
      by rewrite list_lookup_alter_ne.
Qed.

Lemma total_counts_alter (counts : list Z) (i : nat) :
  i < length counts ->
  total_counts (alter (fun c => (c + 1)%Z) i counts) = (total_counts counts + 1)%Z.
Proof.
  revert i. induction counts as [|c cs IH]; intros i Hi; cbn in Hi; [lia|].
  assert (Hcons : forall x xs, total_counts (x :: xs) = (x + total_counts xs)%Z)
    by reflexivity.
  destruct i as [|i].
  - change (alter (fun c => (c + 1)%Z) 0 (c :: cs)) with ((c + 1)%Z :: cs).
    rewrite !Hcons. lia.
  - change (alter (fun c => (c + 1)%Z) (S i) (c :: cs))
      with (c :: alter (fun c => (c + 1)%Z) i cs).
    rewrite !Hcons, IH by lia. lia.
Qed.

Lemma total_counts_count_shots (bin : nat -> nat) (shot_list : list nat)
    (counts : list Z) :
  (forall shot, bin shot < length counts) ->
  total_counts (fold_left (fun counts shot => alter (fun c => (c + 1)%Z) (bin shot) counts)
                          shot_list counts)
  = (total_counts counts + Z.of_nat (length shot_list))%Z.
Proof.
  intros Hbin. revert counts Hbin.
  induction shot_list as [|x xs IH]; intros counts Hbin.
  - cbn [fold_left length]. lia.
  - cbn [fold_left length]. rewrite IH.
    + rewrite total_counts_alter by apply Hbin. lia.
    + intros shot. rewrite length_alter. apply Hbin.
Qed.

Lemma total_counts_zero (n : nat) : total_counts (replicate n 0%Z) = 0%Z.
Proof.
  induction n as [|n IH]; [reflexivity|].
  change (total_counts (replicate (S n) 0%Z)) with (0 + total_counts (replicate n 0%Z))%Z.
  lia.
Qed.

(** X1: after [Counts] the counter of every bin is the number of shots whose
    gathered bits give that bin; what the buffer held before does not
    matter. *)
Theorem Counts_histogram (E : Engine) eigvals counts shots s eigvals' counts' s' b :
  GetNumQubits s < 32 ->
  Counts E eigvals counts shots s = (Return (eigvals', counts'), s') ->
  b < 2 ^ GetNumQubits s ->
  counts' !! b
  = Some (Z.of_nat (shots_in_bin (generate_samples E (device_sv s) shots)
                                 (GetNumQubits s) (seq 0 (GetNumQubits s)) shots b)).
Proof.
  intros Hn Hrun Hb. revert Hrun. unfold Counts. run.
  rewrite shl1_32_small by done.
  destruct (Nat.eqb_spec (length eigvals) (2 ^ GetNumQubits s)); [|discriminate].
  destruct (Nat.eqb_spec (length counts) (2 ^ GetNumQubits s)) as [Hc|]; [|discriminate].
  cbn [negb orb]. intros [= _ <- _].
  unfold count_shots, shots_in_bin. rewrite count_shots_lookup.
  unfold fill_zero. rewrite lookup_replicate_2 by lia. cbn. f_equal.
Qed.

Lemma Counts_histogram_witness :
  [0; 2; 1; 0]%Z !! 1
  = Some (Z.of_nat
            (shots_in_bin
               (generate_samples (scripted rev_amplitudes [] [1; 0; 1; 0; 0; 1] no_jac)
                                 (device_sv sim_two_qubits) 3)
               (GetNumQubits sim_two_qubits) (seq 0 (GetNumQubits sim_two_qubits)) 3 1)).
Proof.
  apply (Counts_histogram (scripted rev_amplitudes [] [1; 0; 1; 0; 0; 1] no_jac)
           [0; 0; 0; 0]%float [5; 5; 5; 5]%Z 3 sim_two_qubits
           [0; 1; 2; 3]%float [0; 2; 1; 0]%Z sim_two_qubits 1).
  - vm_compute. lia.
  - vm_compute. reflexivity.
  - vm_compute. lia.
Defined.

(** X2: the counters [Counts] leaves add up to the number of shots: every
    shot is counted once, in a bin of the buffer. *)
Theorem Counts_total (E : Engine) eigvals counts shots s eigvals' counts' s' :
  GetNumQubits s < 32 ->
  Counts E eigvals counts shots s = (Return (eigvals', counts'), s') ->
  total_counts counts' = Z.of_nat shots.
Proof.
  intros Hn. unfold Counts. run.
  rewrite shl1_32_small by done.
  destruct (Nat.eqb_spec (length eigvals) (2 ^ GetNumQubits s)); [|discriminate].
  destruct (Nat.eqb_spec (length counts) (2 ^ GetNumQubits s)) as [Hc|]; [|discriminate].
  cbn [negb orb]. intros [= _ <- _].
  unfold count_shots. rewrite total_counts_count_shots.
  - unfold fill_zero. rewrite total_counts_zero, length_seq. lia.
  - intros shot. unfold fill_zero. rewrite length_replicate, Hc.
    pose proof (shot_bin_bound (generate_samples E (device_sv s) shots)
                  (GetNumQubits s) shot (seq 0 (GetNumQubits s))) as Hb.
    by rewrite length_seq in Hb.
Qed.

Lemma Counts_total_witness :
  total_counts [0; 2; 1; 0]%Z = Z.of_nat 3.
Proof.
  apply (Counts_total (scripted rev_amplitudes [] [1; 0; 1; 0; 0; 1] no_jac)
           [0; 0; 0; 0]%float [5; 5; 5; 5]%Z 3 sim_two_qubits
           [0; 1; 2; 3]%float [0; 2; 1; 0]%Z sim_two_qubits).
  - vm_compute. lia.
  - vm_compute. reflexivity.
Defined.

(** X3: [PartialCounts] over [k] wires: the counter of every bin below [2^k]
    is the number of shots whose bits on the queried wires, gathered in the
    order of the query, give that bin; the counters add up to the number of
    shots. *)
Theorem PartialCounts_histogram (E : Engine) eigvals counts wires shots s
    eigvals' counts' s' :
  length wires < 32 ->
  PartialCounts E eigvals counts wires shots s = (Return (eigvals', counts'), s') ->
  exists dev_wires,
    getDeviceWires wires s = (Return dev_wires, s)
    /\ (forall b, b < 2 ^ length wires ->
          counts' !! b
          = Some (Z.of_nat (shots_in_bin (generate_samples E (device_sv s) shots)
                                         (GetNumQubits s) dev_wires shots b)))
    /\ total_counts counts' = Z.of_nat shots.
Proof.
  intros Hn. unfold PartialCounts. run.
  rewrite shl1_32_small by done.
  destruct (GetNumQubits s <? length wires); [discriminate|].
  destruct (negb (isValidQubits wires s)); [discriminate|].
  destruct (Nat.eqb_spec (length eigvals) (2 ^ length wires)); [|discriminate].
  destruct (Nat.eqb_spec (length counts) (2 ^ length wires)) as [Hc|]; [|discriminate].
  cbn [negb orb].
  pose proof (getDeviceWires_state wires s) as Hst.
  destruct (getDeviceWires wires s) as [[dev_wires|msg] s1] eqn:Hdev; [|discriminate].
  cbn in Hst. subst s1.
  destruct (getDeviceWires_Return wires s s dev_wires Hdev) as [_ Hlen].
  intros [= _ <- _]. exists dev_wires. split; [reflexivity|]. split.
  - intros b Hb. unfold count_shots, shots_in_bin. rewrite count_shots_lookup.
    unfold fill_zero. rewrite lookup_replicate_2 by lia. cbn. f_equal.
  - unfold count_shots. rewrite total_counts_count_shots.
    + unfold fill_zero. rewrite total_counts_zero, length_seq. lia.
    + intros shot. unfold fill_zero. rewrite length_replicate, Hc, <- Hlen.
      apply shot_bin_bound.
Qed.

Lemma PartialCounts_histogram_witness :
  exists dev_wires,
    getDeviceWires [1%Z] sim_two_qubits = (Return dev_wires, sim_two_qubits)
    /\ total_counts [2; 1]%Z = Z.of_nat 3.
Proof.
  destruct (PartialCounts_histogram (scripted rev_amplitudes [] [1; 0; 1; 0; 0; 1] no_jac)
              [0; 0]%float [5; 5]%Z [1%Z] 3 sim_two_qubits
              [0; 1]%float [2; 1]%Z sim_two_qubits)
    as (dev_wires & Hdev & _ & Htotal).
  - simpl. lia.
  - vm_compute. reflexivity.
  - exists dev_wires. split; assumption.
Defined.

(** ** Samples *)

Lemma map_lookup {A B} (f : A -> B) (l : list A) (i : nat) :
  map f l !! i = f <$> l !! i.
Proof. revert i. induction l as [|x l IH]; intros [|i]; cbn; auto. Qed.

(** One shot written through the iterator: [length wires] entries from the
    iterator on, one per queried wire, in the order of the query. *)
Lemma write_shot_spec (li_samples : list nat) (numQubits : nat) (wires : list nat)
    (shot samplesIter : nat) (samples : list float) :
  fst (write_shot li_samples numQubits wires (samplesIter, samples) shot)
  = samplesIter + length wires
  /\ forall p,
      snd (write_shot li_samples numQubits wires (samplesIter, samples) shot) !! p
      = if decide (samplesIter <= p < samplesIter + length wires)
        then (fun _ => double_of_nat
                         (nth (shot * numQubits + nth (p - samplesIter) wires 0)
                              li_samples 0))
               <$> samples !! p
        else samples !! p.
Proof.
  revert samplesIter samples. induction wires as [|w ws IH]; intros it samples.
  - cbn. split; [lia|]. intros p. destruct (decide _); [lia|reflexivity].
  - unfold write_shot in *. cbn [fold_left length].
    destruct (IH (S it)
                 (<[it := double_of_nat (nth (shot * numQubits + w) li_samples 0)]>
                    samples)) as [Hit Hlook].
    split; [rewrite Hit; lia|].
    intros p. rewrite Hlook, lookup_insert_const.
    destruct (decide (it = p)) as [->|Hne].
    + destruct (decide (S p <= p < S p + length ws)); [lia|].
      destruct (decide (p <= p < p + S (length ws))); [|lia].
      by rewrite Nat.sub_diag.
    + destruct (decide (S it <= p < S it + length ws)),
               (decide (it <= p < it + S (length ws))); try lia; [|reflexivity].
      replace (p - it) with (S (p - S it)) by lia. reflexivity.
Qed.

(** All shots: entry [p] of the first [shots * length wires] entries is the
    bit of shot [p / length wires] on the wire queried at position
    [p mod length wires]; the rest of the buffer is kept. *)
Lemma write_samples_lookup (li_samples : list nat) (numQubits : nat) (wires : list nat)
    (shots : nat) (samples : list float) (p : nat) :
  write_samples li_samples numQubits wires shots samples !! p
  = if decide (p < shots * length wires)
    then (fun _ => double_of_nat
                     (nth (p / length wires * numQubits
                           + nth (p mod length wires) wires 0) li_samples 0))
           <$> samples !! p
    else samples !! p.
Proof.
  unfold write_samples.
  assert (H : forall n,
             fst (fold_left (write_shot li_samples numQubits wires) (seq 0 n) (0, samples))
             = n * length wires
             /\ forall p,
                 snd (fold_left (write_shot li_samples numQubits wires) (seq 0 n)
                                (0, samples)) !! p
                 = if decide (p < n * length wires)
                   then (fun _ => double_of_nat
                                    (nth (p / length wires * numQubits
                                          + nth (p mod length wires) wires 0)
                                         li_samples 0))
                          <$> samples !! p
                   else samples !! p).
  { induction n as [|n [IHit IHlook]].
    - cbn. split; [reflexivity|]. intros q. destruct (decide _); [lia|reflexivity].
    - rewrite seq_S, fold_left_app. cbn [fold_left Nat.add].
      destruct (fold_left (write_shot li_samples numQubits wires) (seq 0 n) (0, samples))
        as [it sn]. cbn [fst snd] in *. subst it.
      destruct (write_shot_spec li_samples numQubits wires n (n * length wires) sn)
        as [Hit Hlook].
      split; [rewrite Hit; lia|].
      intros q. rewrite Hlook, IHlook.
      destruct (decide (n * length wires <= q < n * length wires + length wires))
        as [Hin|Hout].
      + destruct (decide (q < n * length wires)); [lia|].
        destruct (decide (q < S n * length wires)); [|lia].
        pose proof (Nat.div_mod_eq q (length wires)) as Hq.
        pose proof (Nat.mod_upper_bound q (length wires) ltac:(lia)) as Hr.
        assert (Hdiv : q / length wires = n) by nia.
        assert (Hmod : q mod length wires = q - n * length wires) by nia.
        by rewrite Hdiv, Hmod.
      + destruct (decide (q < n * length wires)), (decide (q < S n * length wires));
          try lia; reflexivity. }
  apply H.
Qed.

Lemma write_samples_length (li_samples : list nat) (numQubits : nat) (wires : list nat)
    (shots : nat) (samples : list float) :
  length (write_samples li_samples numQubits wires shots samples) = length samples.
Proof.
  pose proof (write_samples_lookup li_samples numQubits wires shots samples) as Hl.
  set (samples' := write_samples li_samples numQubits wires shots samples) in *.
  destruct (Nat.lt_trichotomy (length samples') (length samples)) as [Hlt|[Heq|Hgt]];
    [|done|]; exfalso.
  - specialize (Hl (length samples')).
    rewrite (lookup_ge_None_2 samples') in Hl by lia.
    destruct (lookup_lt_is_Some_2 samples _ Hlt) as [x Hx]. rewrite Hx in Hl.
    destruct (decide _); discriminate.
  - specialize (Hl (length samples)).
    destruct (lookup_lt_is_Some_2 samples' (length samples) Hgt) as [x Hx].
    rewrite Hx, (lookup_ge_None_2 samples) in Hl by lia.
    destruct (decide _); discriminate.
Qed.

(** X5: when the sampler returns [shots * qubits] bits, [Sample] fills the
    buffer with exactly these bits as doubles, in the sampler's order (shot
    after shot, wire after wire). *)
Theorem Sample_layout (E : Engine) samples shots s samples' s' :
  length (generate_samples E (device_sv s) shots) = shots * GetNumQubits s ->
  Sample E samples shots s = (Return samples', s') ->
  samples' = map double_of_nat (generate_samples E (device_sv s) shots).
Proof.
  intros Hli. unfold Sample. run.
  set (li := generate_samples E (device_sv s) shots) in *.
  destruct (Nat.eqb_spec (length samples) (length li)) as [Hlen|]; [|discriminate].
  cbn [negb]. intros [= <- _].
  apply list_eq. intros p.
  rewrite write_samples_lookup, map_lookup, length_seq.
  destruct (decide (p < shots * GetNumQubits s)) as [Hp|Hp].
  - destruct (lookup_lt_is_Some_2 samples p ltac:(lia)) as [x ->].
    destruct (lookup_lt_is_Some_2 li p ltac:(lia)) as [y Hy]. rewrite Hy. cbn.
    pose proof (Nat.mod_upper_bound p (GetNumQubits s) ltac:(lia)) as Hr.
    rewrite seq_nth by done. cbn [Nat.add].
    pose proof (Nat.div_mod_eq p (GetNumQubits s)) as Hq.
    replace (p / GetNumQubits s * GetNumQubits s + p mod GetNumQubits s) with p by lia.
    by rewrite (nth_lookup_Some _ _ _ _ Hy).
  - rewrite !lookup_ge_None_2 by lia. reflexivity.
Qed.

Lemma Sample_layout_witness :
  [1; 0; 1; 0; 0; 1]%float = map double_of_nat [1; 0; 1; 0; 0; 1].
Proof.
  apply (Sample_layout (scripted rev_amplitudes [] [1; 0; 1; 0; 0; 1] no_jac)
           [7; 7; 7; 7; 7; 7]%float 3 sim_two_qubits
           [1; 0; 1; 0; 0; 1]%float sim_two_qubits).
  - reflexivity.
  - vm_compute. reflexivity.
Defined.

(** X6: [PartialSample] over [k] wires fills the buffer row by row: entry
    [shot * k + j] is the bit the sampler drew in [shot] for the wire of the
    [j]-th queried id; the buffer keeps its size. *)
Theorem PartialSample_layout (E : Engine) samples wires shots s samples' s' :
  PartialSample E samples wires shots s = (Return samples', s') ->
  exists dev_wires,
    getDeviceWires wires s = (Return dev_wires, s)
    /\ length samples' = shots * length wires
    /\ forall shot j wire,
        shot < shots ->
        dev_wires !! j = Some wire ->
        samples' !! (shot * length wires + j)
        = Some (double_of_nat
                  (nth (shot * GetNumQubits s + wire)
                       (generate_samples E (device_sv s) shots) 0)).
Proof.
  unfold PartialSample. run.
  destruct (GetNumQubits s <? length wires); [discriminate|].
  destruct (negb (isValidQubits wires s)); [discriminate|].
  destruct (Nat.eqb_spec (length samples) (shots * length wires)) as [Hlen|];
    [|discriminate].
  cbn [negb].
  pose proof (getDeviceWires_state wires s) as Hst.
  destruct (getDeviceWires wires s) as [[dev_wires|msg] s1] eqn:Hdev; [|discriminate].
  cbn in Hst. subst s1.
  destruct (getDeviceWires_Return wires s s dev_wires Hdev) as [_ Hk].
  intros [= <- _]. exists dev_wires. split; [reflexivity|]. split.
  - by rewrite write_samples_length.
  - intros shot j wire Hshot Hj.
    pose proof (lookup_lt_Some _ _ _ Hj) as Hjlt.
    rewrite write_samples_lookup, Hk.
    destruct (decide (shot * length wires + j < shots * length wires)) as [_|Hn];
      [|nia].
    destruct (lookup_lt_is_Some_2 samples (shot * length wires + j) ltac:(nia))
      as [x ->]. cbn.
    assert (Hdiv : (shot * length wires + j) / length wires = shot).
    { symmetry. apply (Nat.div_unique _ _ _ j); lia. }
    assert (Hmod : (shot * length wires + j) mod length wires = j).
    { symmetry. apply (Nat.mod_unique _ _ shot); lia. }
    rewrite Hdiv, Hmod, (nth_lookup_Some _ _ _ _ Hj). reflexivity.
Qed.

Lemma PartialSample_layout_witness :
  exists dev_wires,
    getDeviceWires [1%Z] sim_two_qubits = (Return dev_wires, sim_two_qubits)
    /\ length [0; 0; 1]%float = 3 * length [1%Z].
Proof.
  destruct (PartialSample_layout (scripted rev_amplitudes [] [1; 0; 1; 0; 0; 1] no_jac)
              [7; 7; 7]%float [1%Z] 3 sim_two_qubits [0; 0; 1]%float sim_two_qubits)
    as (dev_wires & Hdev & Hlen & _).
  - vm_compute. reflexivity.
  - exists dev_wires. split; assumption.
Defined.

(** ** Measure: the register after the collapse *)

Lemma zero_half_length (stride half_section_size k : nat) (state : list complex) :
  length (zero_half stride half_section_size k state) = length state.
Proof.
  unfold zero_half.
  assert (Hin : forall (f : nat -> nat) l (st : list complex),
             length (fold_left (fun st ids => <[f ids := czero]> st) l st) = length st).
  { intros f l. induction l as [|x l IH]; intros st; [done|].
    cbn [fold_left]. by rewrite IH, length_insert. }
  generalize (seq 0 half_section_size). intros l. revert state.
  induction l as [|idx l IH]; intros state; [done|].
  cbn [fold_left]. rewrite IH.
  apply (Hin (fun ids => stride * (k + 2 * idx) + ids)).
Qed.

Lemma Measure_Return_inv (E : Engine) draw wire s r s' :
  Measure E draw wire s = (Return r, s') ->
  exists probs,
    PartialProbs E (replicate (shl1_32 1) 0%float) [wire] s = (Return probs, s).
Proof.
  intros Hrun.
  destruct (PartialProbs E (replicate (shl1_32 1) 0%float) [wire] s)
    as [[probs|msg] s1] eqn:Hprobs.
  - destruct (PartialProbs_Return _ _ _ _ _ _ Hprobs) as [-> _]. by exists probs.
  - rewrite (Measure_Throw E draw wire s msg s1 Hprobs) in Hrun. discriminate.
Qed.

(** X8: a [Measure] that returns keeps the register: the same number of
    qubits and of amplitudes, and the qubit manager, the tape, the recording
    flag, the observables and the shots as they were. *)
Theorem Measure_keeps_register (E : Engine) draw wire s r s' :
  Measure E draw wire s = (Return r, s') ->
  GetNumQubits s' = GetNumQubits s
  /\ length (sv_data (device_sv s')) = length (sv_data (device_sv s))
  /\ qubit_manager s' = qubit_manager s
  /\ cache_manager s' = cache_manager s
  /\ tape_recording s' = tape_recording s
  /\ obs_manager s' = obs_manager s
  /\ device_shots s' = device_shots s.
Proof.
  intros Hrun.
  destruct (Measure_Return_inv E draw wire s r s' Hrun) as [probs Hprobs].
  destruct (Measure_Return E draw wire s probs s Hprobs) as (dev_wire & _ & Heq).
  cbv zeta in Heq. rewrite Heq in Hrun. injection Hrun as _ <-.
  split_and!; try reflexivity.
  - unfold GetNumQubits. cbn [device_sv set_device_sv StateVector_from sv_num_qubits].
    apply Nat.log2_pow2. lia.
  - cbn [device_sv set_device_sv StateVector_from sv_data].
    unfold normalize, zeroed. by rewrite length_map, zero_half_length.
Qed.

Lemma Measure_keeps_register_witness :
  GetNumQubits (snd (Measure (scripted rev_amplitudes [0.5; 0.5]%float [] no_jac)
                             0.75%float 0%Z sim_half))
  = GetNumQubits sim_half.
Proof.
  destruct (Measure_keeps_register (scripted rev_amplitudes [0.5; 0.5]%float [] no_jac)
              0.75%float 0%Z sim_half One
              (snd (Measure (scripted rev_amplitudes [0.5; 0.5]%float [] no_jac)
                            0.75%float 0%Z sim_half))) as [H _].
  - vm_compute. reflexivity.
  - exact H.
Defined.

(** X9: the amplitudes after a [Measure] that returns outcome [r] on the
    wire [dev_wire]: there is one divisor (the norm of what is left) such
    that the amplitude of every basis state whose bit of [dev_wire] (wire 0
    is the most significant bit of the index) is [r] is the old amplitude
    divided by it, and every other amplitude is zero divided by it. *)
Theorem Measure_amplitudes (E : Engine) draw wire s r s' dev_wire :
  Measure E draw wire s = (Return r, s') ->
  QubitManager.getDeviceId wire (qubit_manager s) = Return dev_wire ->
  dev_wire < GetNumQubits s ->
  exists norm,
    forall v, v < 2 ^ GetNumQubits s ->
      sv_data (device_sv s') !! v
      = cdiv norm <$>
          (if decide (index_bit (GetNumQubits s) dev_wire v = result_bit r)
           then sv_data (device_sv s) !! v
           else (fun _ => czero) <$> sv_data (device_sv s) !! v).
Proof.
  intros Hrun Hid Hw.
  destruct (Measure_Return_inv E draw wire s r s' Hrun) as [probs Hprobs].
  destruct (Measure_Return E draw wire s probs s Hprobs) as (dev_wire' & Hid' & Heq).
  rewrite Hid in Hid'. injection Hid' as <-.
  cbv zeta in Heq. rewrite Heq in Hrun. injection Hrun as Hr <-.
  eexists. intros v Hv.
  cbn [device_sv set_device_sv StateVector_from sv_data].
  unfold normalize. rewrite map_lookup. f_equal.
  rewrite zeroed_lookup by done. unfold index_bit.
  destruct (nth 0 probs 0 <? draw)%float; subst r; cbn [result_bit].
  - destruct (decide ((v / 2 ^ (GetNumQubits s - 1 - dev_wire)) mod 2 = 0)) as [H0|H0],
             (decide ((v / 2 ^ (GetNumQubits s - 1 - dev_wire)) mod 2 = 1)) as [H1|H1];
      try reflexivity; try lia.
    pose proof (Nat.mod_upper_bound (v / 2 ^ (GetNumQubits s - 1 - dev_wire)) 2). lia.
  - destruct (decide ((v / 2 ^ (GetNumQubits s - 1 - dev_wire)) mod 2 = 1)) as [H1|H1],
             (decide ((v / 2 ^ (GetNumQubits s - 1 - dev_wire)) mod 2 = 0)) as [H0|H0];
      try reflexivity; try lia.
    pose proof (Nat.mod_upper_bound (v / 2 ^ (GetNumQubits s - 1 - dev_wire)) 2). lia.
Qed.

Lemma Measure_amplitudes_witness :
  exists norm,
    forall v, v < 2 ^ GetNumQubits sim_half ->
      sv_data (device_sv
                 (snd (Measure (scripted rev_amplitudes [0.5; 0.5]%float [] no_jac)
                               0.75%float 0%Z sim_half))) !! v
      = cdiv norm <$>
          (if decide (index_bit (GetNumQubits sim_half) 0 v = result_bit One)
           then sv_data (device_sv sim_half) !! v
           else (fun _ => czero) <$> sv_data (device_sv sim_half) !! v).
Proof.
  apply (Measure_amplitudes (scripted rev_amplitudes [0.5; 0.5]%float [] no_jac)
           0.75%float 0%Z sim_half One
           (snd (Measure (scripted rev_amplitudes [0.5; 0.5]%float [] no_jac)
                         0.75%float 0%Z sim_half)) 0).
  - vm_compute. reflexivity.
  - vm_compute. reflexivity.
  - vm_compute. lia.
Defined.

(** ** Measure: when it throws *)

Lemma isValidQubitId_getDeviceId (q : QubitIdType) (qm : QubitManager.t) :
  QubitManager.isValidQubitId q qm
  = match QubitManager.getDeviceId q qm with
    | Return _ => true
    | Throw _ => false
    end.
Proof.
  unfold QubitManager.isValidQubitId, QubitManager.getDeviceId.
  destruct (QubitManager.qubits_map qm !! q) as [w|] eqn:Hq.
  - apply bool_decide_eq_true_2. eauto.
  - apply bool_decide_eq_false_2. by intros [w Hw].
Qed.

(** X10: the outcomes of [Measure], case by case.  Without any qubit it
    throws "Invalid number of wires"; on an id that is not allocated it
    throws "Invalid given wires to measure"; when the probability kernel
    does not answer with two numbers it throws the size error of
    [PartialProbs]; in each of these cases the simulator stays as it was.
    In every other case it returns an outcome. *)
Theorem Measure_outcomes (E : Engine) draw wire s :
  if GetNumQubits s =? 0
  then Measure E draw wire s = (Throw "Invalid number of wires", s)
  else
    match QubitManager.getDeviceId wire (qubit_manager s) with
    | Throw _ => Measure E draw wire s = (Throw "Invalid given wires to measure", s)
    | Return dev_wire =>
        let dv_probs :=
          if device_shots s =? 0 then probs_wires E (device_sv s) [dev_wire]
          else probs_wires_shots E (device_sv s) [dev_wire] (device_shots s) in
        if length dv_probs =? 2
        then exists r s', Measure E draw wire s = (Return r, s')
        else Measure E draw wire s
             = (Throw "Invalid size for the pre-allocated partial-probabilities", s)
    end.
Proof.
  assert (Hpp : PartialProbs E (replicate (shl1_32 1) 0%float) [wire] s
                = if GetNumQubits s <? 1
                  then (Throw "Invalid number of wires", s)
                  else match QubitManager.getDeviceId wire (qubit_manager s) with
                       | Throw _ => (Throw "Invalid given wires to measure", s)
                       | Return dev_wire =>
                           let dv_probs :=
                             if device_shots s =? 0
                             then probs_wires E (device_sv s) [dev_wire]
                             else probs_wires_shots E (device_sv s) [dev_wire]
                                                    (device_shots s) in
                           if negb (2 =? length dv_probs)
                           then (Throw "Invalid size for the pre-allocated partial-probabilities", s)
                           else (Return dv_probs, s)
                       end).
  { unfold PartialProbs. run. cbn [length].
    destruct (GetNumQubits s <? 1); [reflexivity|].
    unfold isValidQubits. cbn [forallb]. rewrite andb_true_r.
    rewrite isValidQubitId_getDeviceId.
    change (length (replicate (shl1_32 1) 0%float)) with 2.
    destruct (QubitManager.getDeviceId wire (qubit_manager s)) as [dev_wire|msg] eqn:Hid;
      cbn [negb]; [|reflexivity].
    cbn [getDeviceWires]. run. rewrite Hid. cbv zeta.
    by destruct (negb (2 =? length _)). }
  destruct (Nat.eqb_spec (GetNumQubits s) 0) as [H0|H0].
  - apply Measure_Throw with s. rewrite Hpp, H0. reflexivity.
  - destruct (Nat.ltb_spec (GetNumQubits s) 1) as [|_]; [lia|].
    destruct (QubitManager.getDeviceId wire (qubit_manager s)) as [dev_wire|msg] eqn:Hid.
    + cbv zeta in *.
      rewrite (Nat.eqb_sym 2) in Hpp.
      destruct (length _ =? 2).
      * cbn [negb] in Hpp.
        destruct (Measure_Return E draw wire s _ s Hpp) as (d & _ & Heq).
        cbv zeta in Heq. eauto.
      * cbn [negb] in Hpp. by apply Measure_Throw with s.
    + by apply Measure_Throw with s.
Qed.

(** ** Operations and the tape *)

(** X11: what an operation can touch.  [NamedOperation] and
    [MatrixOperation] never change the qubit manager, the observables, the
    recording flag or the shots; they leave the tape alone when recording is
    off; and when they throw, the whole simulator is as it was. *)
Theorem apply_call_frame (E : Engine) (c : OperationCall) (s : Simulator) :
  let r := fst (apply_call E c s) in
  let s' := snd (apply_call E c s) in
  qubit_manager s' = qubit_manager s
  /\ obs_manager s' = obs_manager s
  /\ tape_recording s' = tape_recording s
  /\ device_shots s' = device_shots s
  /\ (if tape_recording s then True else cache_manager s' = cache_manager s)
  /\ match r with
     | Throw _ => s' = s
     | Return _ => True
     end.
Proof.
  cbv zeta.
  destruct (apply_call_cases E c s) as [[msg ->]|(d & inv & sv & ->)]; cbn [fst snd].
  - split_and!; try reflexivity. by destruct (tape_recording s).
  - destruct (tape_recording s) eqn:Hrec; split_and!; try reflexivity; by rewrite ?Hrec.
Qed.

Lemma apply_calls_cons (E : Engine) c calls s :
  apply_calls E (c :: calls) s
  = match apply_call E c s with
    | (Return _, s1) => apply_calls E calls s1
    | (Throw message, s1) => (Throw message, s1)
    end.
Proof. reflexivity. Qed.

(** While recording is on, the tape grows by exactly the operations that
    were applied, whatever the outcome of the sequence: the applied calls are
    the calls before the first one that throws, and running them alone ends
    in the same simulator. *)
Lemma apply_calls_tape (E : Engine) (calls : list OperationCall)
    (s : Simulator) :
  tape_recording s = true ->
  exists applied,
    applied `prefix_of` calls
    /\ match fst (apply_calls E calls s) with
       | Return _ => applied = calls
       | Throw message =>
           length applied < length calls
           /\ exists c rest,
               calls = applied ++ c :: rest
               /\ apply_call E c (snd (apply_calls E calls s))
                  = (Throw message, snd (apply_calls E calls s))
       end
    /\ apply_calls E applied s = (Return tt, snd (apply_calls E calls s))
    /\ let c' := cache_manager (snd (apply_calls E calls s)) in
       CacheManager.ops_names c'
       = CacheManager.ops_names (cache_manager s) ++ map call_name applied
       /\ CacheManager.ops_params c'
          = CacheManager.ops_params (cache_manager s) ++ map call_params applied
       /\ CacheManager.getNumOperations c'
          = CacheManager.getNumOperations (cache_manager s) + length applied
       /\ CacheManager.obs_keys c' = CacheManager.obs_keys (cache_manager s)
       /\ tape_recording (snd (apply_calls E calls s)) = true.
Proof.
  revert s. induction calls as [|c calls IH]; intros s Hrec.
  - exists []. cbn. rewrite !app_nil_r. by split_and!.
  - rewrite apply_calls_cons.
    destruct (apply_call_cases E c s) as [[msg Hc]|(d & inv & sv & Hc)]; rewrite Hc.
    + exists []. cbn [fst snd length map]. rewrite !app_nil_r.
      split_and!; try done; try (cbn; lia); [apply prefix_nil|].
      exists c, calls. by split.
    + rewrite Hrec in Hc |- *.
      set (s1 := set_cache_manager _ _) in *.
      destruct (IH s1 Hrec)
        as (applied & Hpre & Hout & Hrun & Hnames & Hparams & Hnum & Hobs & Hrec').
      exists (c :: applied). cbv zeta. split_and!.
      * by apply prefix_cons.
      * destruct (fst (apply_calls E calls s1)) as [|msg]; [by subst|].
        destruct Hout as (Hlen & c0 & rest & Hcalls & Hthrow).
        split; [cbn; lia|]. exists c0, rest. split; [|exact Hthrow].
        cbn [app]. by rewrite <- Hcalls.
      * by rewrite apply_calls_cons, Hc.
      * rewrite Hnames. cbn. by rewrite <- app_assoc.
      * rewrite Hparams. cbn. by rewrite <- app_assoc.
      * rewrite Hnum. unfold CacheManager.getNumOperations. cbn.
        rewrite length_app. cbn. lia.
      * rewrite Hobs. reflexivity.
      * exact Hrec'.
Qed.

Lemma getNumParams_concat (ops_params : list (list float)) :
  foldr (fun params n => length params + n) 0 ops_params = length (concat ops_params).
Proof.
  induction ops_params as [|p ps IH]; [reflexivity|].
  cbn [foldr concat]. rewrite length_app, IH. reflexivity.
Qed.

(** X12: a recording session.  After [StartTapeRecording], a sequence of
    operations leaves on the tape exactly the operations that were applied, in
    order: [CacheManagerInfo] reports their number, no observable, the number
    of their parameters and their names ("MatrixOp" for a matrix).  The
    applied calls are all the calls when the sequence returns; when a call
    throws, they are the calls before the throwing one: the sequence is
    [applied ++ c :: rest], the calls of [applied] alone return and end in
    the simulator the sequence ends in, and [c] throws the exception of the
    sequence there.  [StopTapeRecording] then returns and reports the same. *)
Theorem recording_session (E : Engine) (calls : list OperationCall) (s0 : Simulator) :
  tape_recording s0 = false ->
  let s1 := after StartTapeRecording s0 in
  let s2 := snd (apply_calls E calls s1) in
  exists applied,
    applied `prefix_of` calls
    /\ match fst (apply_calls E calls s1) with
       | Return _ => applied = calls
       | Throw message =>
           length applied < length calls
           /\ exists c rest,
               calls = applied ++ c :: rest
               /\ apply_call E c s2 = (Throw message, s2)
       end
    /\ apply_calls E applied s1 = (Return tt, s2)
    /\ CacheManagerInfo s2
       = (length applied, 0, length (concat (map call_params applied)),
          map call_name applied, [])
    /\ fst (StopTapeRecording s2) = Return tt
    /\ CacheManagerInfo (after StopTapeRecording s2) = CacheManagerInfo s2.
Proof.
  intros Hidle. cbv zeta.
  assert (Hstart : after StartTapeRecording s0
                   = set_cache_manager CacheManager.empty (set_tape_recording true s0)).
  { unfold after. by rewrite StartTapeRecording_eq, Hidle. }
  rewrite Hstart.
  set (s1 := set_cache_manager CacheManager.empty (set_tape_recording true s0)).
  destruct (apply_calls_tape E calls s1 eq_refl)
    as (applied & Hpre & Hout & Hrun & Hnames & Hparams & Hnum & Hobs & Hrec).
  cbv zeta in *. cbn [s1 cache_manager set_cache_manager CacheManager.empty
                         CacheManager.ops_names CacheManager.ops_params
                         CacheManager.obs_keys app] in Hnames, Hparams, Hnum, Hobs.
  set (s2 := snd (apply_calls E calls s1)) in *.
  exists applied. split; [exact Hpre|]. split; [exact Hout|]. split; [exact Hrun|].
  assert (Hinfo : CacheManagerInfo s2
                  = (length applied, 0, length (concat (map call_params applied)),
                     map call_name applied, [])).
  { unfold CacheManagerInfo, CacheManager.getNumObservables, CacheManager.getNumParams,
      CacheManager.getOperationsNames, CacheManager.getObservablesKeys,
      CacheManager.getNumOperations.
    by rewrite Hnames, Hparams, Hobs, getNumParams_concat, length_map. }
  split; [exact Hinfo|].
  rewrite StopTapeRecording_eq. unfold after. rewrite StopTapeRecording_eq, Hrec.
  split; reflexivity.
Qed.

(** The third call has no parameter for RX and throws: the two calls before
    it are the ones on the tape. *)
Lemma recording_session_witness :
  tape_recording sim_one_qubit = false
  /\ exists applied,
      match fst (apply_calls scripted_plain
                   [Call_NamedOperation "RX" [0.5%float] [0%Z] false;
                    Call_MatrixOperation [cone; czero; czero; cone] [0%Z] false;
                    Call_NamedOperation "RX" [] [0%Z] false]
                   (after StartTapeRecording sim_one_qubit)) with
      | Return _ => False
      | Throw message =>
          exists c rest,
            [Call_NamedOperation "RX" [0.5%float] [0%Z] false;
             Call_MatrixOperation [cone; czero; czero; cone] [0%Z] false;
             Call_NamedOperation "RX" [] [0%Z] false] = applied ++ c :: rest
      end
      /\ CacheManagerInfo
           (snd (apply_calls scripted_plain
                   [Call_NamedOperation "RX" [0.5%float] [0%Z] false;
                    Call_MatrixOperation [cone; czero; czero; cone] [0%Z] false;
                    Call_NamedOperation "RX" [] [0%Z] false]
                   (after StartTapeRecording sim_one_qubit)))
         = (length applied, 0, length (concat (map call_params applied)),
            map call_name applied, []).
Proof.
  split; [reflexivity|].
  destruct (recording_session scripted_plain
              [Call_NamedOperation "RX" [0.5%float] [0%Z] false;
               Call_MatrixOperation [cone; czero; czero; cone] [0%Z] false;
               Call_NamedOperation "RX" [] [0%Z] false]
              sim_one_qubit) as (applied & _ & Hout & _ & Hinfo & _).
  - reflexivity.
  - exists applied. split; [|exact Hinfo].
    cbv zeta in Hout.
    destruct (fst (apply_calls scripted_plain _ (after StartTapeRecording sim_one_qubit)))
      as [|msg] eqn:Hfst.
    + vm_compute in Hfst. discriminate Hfst.
    + destruct Hout as (_ & c & rest & Hcalls & _). by exists c, rest.
Defined.

(** ** Expectation values and variances *)

(** X13: [Expval] and [Var] on a key.  A key the registry does not hold makes
    both throw "Invalid key for cached observables" with nothing recorded.
    A valid key makes both return the kernel's value for the observable of
    the key (the exact kernel when the shots are 0, the sampling kernel
    otherwise); the state vector is not touched, and when recording is on
    exactly one observable entry, the key with its measurement kind, is
    appended to the tape. *)
Theorem Expval_Var_record (E : Engine) (key : ObsIdType) (s : Simulator) :
  let record kind :=
    if tape_recording s
    then set_cache_manager (CacheManager.addObservable key kind (cache_manager s)) s
    else s in
  if ObsManager.isValidObservables [key] (obs_manager s)
  then exists obs,
      ObsManager.getObservable key (obs_manager s) = Return obs
      /\ Expval E key s
         = (Return (if device_shots s =? 0 then expval_obs E (device_sv s) obs
                    else expval_obs_shots E (device_sv s) obs (device_shots s)),
            record MeasurementsT.Expval)
      /\ Var E key s
         = (Return (if device_shots s =? 0 then var_obs E (device_sv s) obs
                    else var_obs_shots E (device_sv s) obs (device_shots s)),
            record MeasurementsT.Var)
  else Expval E key s = (Throw "Invalid key for cached observables", s)
       /\ Var E key s = (Throw "Invalid key for cached observables", s).
Proof.
  cbv zeta.
  destruct (ObsManager.isValidObservables [key] (obs_manager s)) eqn:Hvalid.
  - assert (Hget : exists obs,
               ObsManager.getObservable key (obs_manager s) = Return obs).
    { revert Hvalid. unfold ObsManager.isValidObservables, ObsManager.getObservable.
      cbn [forallb]. rewrite andb_true_r. intros Hlt%Nat.ltb_lt.
      destruct (lookup_lt_is_Some_2 (obs_manager s) key Hlt) as [obs Hobs].
      exists obs. unfold ObsManager.t, ObsIdType in *. by rewrite Hobs. }
    destruct Hget as [obs Hget]. exists obs. split; [exact Hget|].
    unfold Expval, Var. run. rewrite Hvalid. cbn [negb].
    destruct (tape_recording s);
      cbn [obs_manager device_shots device_sv set_cache_manager];
      rewrite Hget; by split.
  - unfold Expval, Var. run. rewrite Hvalid. by split.
Qed.

(** ** Gradient: the caller's buffers *)

Lemma distribute_shapes (jacobian : list float) (ntp : nat) (obs_indices : list nat)
    (begin_loc : nat) (gradients : list (list float)) :
  length <$> snd (distribute jacobian ntp obs_indices begin_loc gradients)
  = length <$> gradients.
Proof.
  revert begin_loc gradients.
  induction obs_indices as [|i rest IH]; intros begin_loc gradients; [reflexivity|].
  cbn [distribute]. run.
  destruct (negb (negb (begin_loc =? length jacobian))); [reflexivity|].
  destruct (Nat.leb_spec ntp (length (default [] (gradients !! i)))) as [Hle|Hgt];
    cbn [negb]; [|reflexivity].
  rewrite IH. rewrite list_fmap_insert.
  destruct (gradients !! i) as [buffer|] eqn:Hi.
  - apply list_insert_id. rewrite list_lookup_fmap, Hi. cbn [fmap option_fmap option_map default from_option id].
    f_equal. rewrite length_app, length_drop.
    pose proof (length_take_le (drop begin_loc jacobian) ntp) as Htake.
    cbn [default from_option id] in Hle.
    assert (length (take ntp (drop begin_loc jacobian)) <= ntp).
    { rewrite length_take. lia. }
    lia.
  - apply list_insert_ge. rewrite length_fmap.
    by apply lookup_ge_None_1.
Qed.

(** X14: whatever its outcome, [Gradient] leaves the caller with the same
    number of buffers, each of the size it had: it writes into them, it never
    grows or shortens one. *)
Theorem Gradient_keeps_shapes (E : Engine) trainParams s gradients :
  length <$> snd (Gradient E trainParams s gradients) = length <$> gradients.
Proof.
  unfold Gradient.
  destruct (jac_size trainParams s =? 0); [reflexivity|]. run.
  destruct (negb (length gradients =? _)); [reflexivity|].
  destruct (negb (forallb _ _)); [reflexivity|].
  destruct (getObservables _ _) as [obs_vec|msg]; [|reflexivity].
  destruct (adjointJacobian E _ _) as [written|msg]; [|reflexivity].
  apply distribute_shapes.
Qed.

Lemma distribute_app (jacobian : list float) (ntp : nat) (l1 l2 : list nat)
    (begin_loc : nat) (gradients : list (list float)) :
  distribute jacobian ntp (l1 ++ l2) begin_loc gradients
  = match distribute jacobian ntp l1 begin_loc gradients with
    | (Return _, g1) => distribute jacobian ntp l2 (begin_loc + length l1 * ntp) g1
    | (Throw message, g1) => (Throw message, g1)
    end.
Proof.
  revert begin_loc gradients. induction l1 as [|i l1 IH]; intros begin_loc gradients.
  - cbn. by rewrite Nat.add_0_r.
  - cbn [app distribute length]. run.
    destruct (negb (negb (begin_loc =? length jacobian))); [reflexivity|].
    destruct (negb (ntp <=? length (default [] (gradients !! i)))); [reflexivity|].
    rewrite IH.
    replace (begin_loc + ntp + length l1 * ntp) with (begin_loc + S (length l1) * ntp)
      by lia.
    reflexivity.
Qed.

(** The loop over the observables [a .. a + n - 1] when their buffers are
    long enough; the other buffers may be of any size. *)
Lemma distribute_range (jacobian : list float) (ntp nobs : nat) :
  0 < ntp ->
  length jacobian = ntp * nobs ->
  forall (n a : nat) (gradients : list (list float)),
    a + n <= nobs ->
    length gradients = nobs ->
    (forall i b, a <= i < a + n -> gradients !! i = Some b -> ntp <= length b) ->
    exists g',
      distribute jacobian ntp (seq a n) (a * ntp) gradients = (Return tt, g')
      /\ length g' = nobs
      /\ forall i, g' !! i =
                   if bool_decide (a <= i < a + n)
                   then segment_into jacobian ntp i <$> gradients !! i
                   else gradients !! i.
Proof.
  intros Hntp Hjac n. induction n as [|n IH]; intros a gradients Hrange Hlen Hbuf.
  - exists gradients. split_and!; [reflexivity|done|].
    intros i. rewrite bool_decide_eq_false_2 by lia. reflexivity.
  - cbn [seq distribute]. run.
    destruct (Nat.eqb_spec (a * ntp) (length jacobian)) as [Heq|_]; [nia|].
    cbn [negb].
    destruct (lookup_lt_is_Some_2 gradients a ltac:(lia)) as [buffer Hbuffer].
    rewrite Hbuffer. cbn [default from_option id].
    pose proof (Hbuf a buffer ltac:(lia) Hbuffer) as Hlb.
    destruct (Nat.leb_spec ntp (length buffer)) as [_|?]; [|lia].
    cbn [negb].
    assert (Hcur : length (take ntp (drop (a * ntp) jacobian)) = ntp).
    { rewrite length_take, length_drop. nia. }
    rewrite Hcur.
    set (g1 := <[a := take ntp (drop (a * ntp) jacobian) ++ drop ntp buffer]> gradients).
    replace (a * ntp + ntp) with (S a * ntp) by lia.
    destruct (IH (S a) g1) as (g' & Hrun & Hlen' & Hlook).
    + lia.
    + unfold g1. by rewrite length_insert.
    + intros i b Hi Hib. unfold g1 in Hib.
      rewrite list_lookup_insert_ne in Hib by lia. eapply Hbuf; [|exact Hib]. lia.
    + exists g'. split_and!; [exact Hrun|exact Hlen'|].
      intros i. rewrite Hlook. unfold g1.
      destruct (decide (i = a)) as [->|Hne].
      * rewrite bool_decide_eq_false_2 by lia.
        rewrite bool_decide_eq_true_2 by lia.
        rewrite list_lookup_insert_eq by lia. rewrite Hbuffer. reflexivity.
      * rewrite list_lookup_insert_ne by done.
        destruct (decide (S a <= i < S a + n)).
        -- rewrite !bool_decide_eq_true_2 by lia. reflexivity.
        -- rewrite !bool_decide_eq_false_2 by lia. reflexivity.
Qed.

(** X15: a buffer that is too short is found only when its observable is
    reached.  When buffer [i] is the first one shorter than the number of
    trainable parameters, [Gradient] throws the assertion on the buffer size,
    and by then the buffers before [i] hold their segments of the Jacobian;
    buffer [i] and the ones after it are as they were. *)
Theorem Gradient_short_buffer (E : Engine) trainParams s gradients obs_vec written
    (i : nat) (buffer : list float) :
  jac_size trainParams s <> 0 ->
  length gradients = CacheManager.getNumObservables (cache_manager s) ->
  forallb (fun m => MeasurementsT.eqb m MeasurementsT.Expval)
          (CacheManager.getObservablesCallees (cache_manager s)) = true ->
  getObservables (CacheManager.getObservablesKeys (cache_manager s)) (obs_manager s)
  = Return obs_vec ->
  adjointJacobian E (jacobian_tape s trainParams obs_vec) (device_sv s) = Return written ->
  gradients !! i = Some buffer ->
  length buffer < num_train_params trainParams s ->
  (forall j b, j < i -> gradients !! j = Some b ->
               num_train_params trainParams s <= length b) ->
  exists g',
    Gradient E trainParams s gradients
    = (Throw "Assertion: num_train_params <= gradients[obs_idx].size()", g')
    /\ forall j,
        g' !! j
        = if bool_decide (j < i)
          then segment_into (map written (seq 0 (jac_size trainParams s)))
                            (num_train_params trainParams s) j
                 <$> gradients !! j
          else gradients !! j.
Proof.
  intros Hjac Hlen Hvalid Hobs Hker Hi Hshort Hbefore.
  set (ntp := num_train_params trainParams s) in *.
  set (nobs := CacheManager.getNumObservables (cache_manager s)) in *.
  assert (Hsize : jac_size trainParams s = ntp * nobs) by reflexivity.
  assert (Hinobs : i < nobs).
  { rewrite <- Hlen. by eapply lookup_lt_Some. }
  set (jac := map written (seq 0 (ntp * nobs))).
  assert (Hjaclen : length jac = ntp * nobs).
  { unfold jac. by rewrite length_map, length_seq. }
  destruct (distribute_range jac ntp nobs ltac:(nia) Hjaclen i 0 gradients
              ltac:(lia) Hlen) as (g1 & Hrun & Hlen1 & Hlook).
  { intros j b Hj Hjb. eapply Hbefore; [|exact Hjb]. lia. }
  exists g1. split.
  - unfold Gradient.
    destruct (Nat.eqb_spec (jac_size trainParams s) 0); [done|]. run.
    fold nobs. rewrite Hlen, Nat.eqb_refl. cbn [negb].
    rewrite Hvalid. cbn [negb]. rewrite Hobs, Hker.
    fold ntp. rewrite Hsize. fold jac.
    replace nobs with (i + S (nobs - S i)) at 1 by lia.
    rewrite seq_app, distribute_app.
    change (0 * ntp) with 0 in Hrun. rewrite Hrun.
    rewrite length_seq. cbn [Nat.add seq distribute]. run.
    destruct (Nat.eqb_spec (i * ntp) (length jac)) as [Heq|_]; [nia|].
    cbn [negb].
    rewrite Hlook, bool_decide_eq_false_2 by lia. rewrite Hi.
    cbn [default from_option id].
    destruct (Nat.leb_spec ntp (length buffer)) as [|_]; [lia|].
    reflexivity.
  - intros j. rewrite Hlook, Hsize.
    destruct (decide (j < i)).
    + rewrite !bool_decide_eq_true_2 by lia. reflexivity.
    + rewrite !bool_decide_eq_false_2 by lia. reflexivity.
Qed.

Lemma Gradient_short_buffer_witness :
  exists g',
    Gradient (scripted rev_amplitudes [] [] double_of_nat) [5; 6] sim_rx_expval
             [[7; 8; 3]%float; [9]%float]
    = (Throw "Assertion: num_train_params <= gradients[obs_idx].size()", g')
    /\ g' !! 0 = Some [0; 1; 3]%float
    /\ g' !! 1 = Some [9]%float.
Proof.
  destruct (Gradient_short_buffer (scripted rev_amplitudes [] [] double_of_nat) [5; 6]
              sim_rx_expval [[7; 8; 3]%float; [9]%float]
              [ObsManager.NamedObs ObsId.PauliZ [0]; ObsManager.NamedObs ObsId.PauliZ [0]]
              double_of_nat 1 [9]%float)
    as (g' & Hrun & Hlook).
  - vm_compute. lia.
  - reflexivity.
  - reflexivity.
  - reflexivity.
  - reflexivity.
  - reflexivity.
  - vm_compute. lia.
  - intros [|j] b Hj; [|lia]. vm_compute. intros H; inversion H. lia.
  - exists g'. split_and!.
    + exact Hrun.
    + rewrite (Hlook 0). vm_compute. reflexivity.
    + rewrite (Hlook 1). reflexivity.
Defined.

(** ** State and the register *)

(** X16: [State] on a register with one amplitude per basis state: a buffer
    of [2^n] entries receives exactly the amplitudes of the device; a buffer
    of any other size makes it throw; the simulator is never changed. *)
Theorem State_copy (state : list complex) (s : Simulator) :
  sv_wf (device_sv s) ->
  State state s
  = if length state =? 2 ^ GetNumQubits s
    then (Return (sv_data (device_sv s)), s)
    else (Throw "Invalid size for the pre-allocated state vector", s).
Proof.
  intros Hwf. unfold State, exp2, GetNumQubits. run.
  destruct (Nat.eqb_spec (length state) (2 ^ sv_num_qubits (device_sv s))) as [Hlen|];
    [|reflexivity].
  cbn [negb]. unfold sv_wf in Hwf.
  rewrite drop_ge by lia. by rewrite app_nil_r.
Qed.

Lemma State_copy_witness :
  State [czero; czero; czero; czero] sim_two_qubits
  = if length [czero; czero; czero; czero] =? 2 ^ GetNumQubits sim_two_qubits
    then (Return (sv_data (device_sv sim_two_qubits)), sim_two_qubits)
    else (Throw "Invalid size for the pre-allocated state vector", sim_two_qubits).
Proof.
  apply (State_copy [czero; czero; czero; czero] sim_two_qubits).
  vm_compute. reflexivity.
Defined.

(** X17: allocating qubits starts the register afresh.  After
    [AllocateQubits(k)] with [k > 0], whatever amplitudes the simulator held,
    [State] into a buffer of the new size returns the basis state [|0...0>]
    of the new number of qubits. *)
Theorem State_after_AllocateQubits (k : nat) (state : list complex) (s : Simulator) :
  k <> 0 ->
  length state = 2 ^ (GetNumQubits s + k) ->
  fst (State state (after (AllocateQubits k) s))
  = Return (cone :: replicate (2 ^ (GetNumQubits s + k) - 1) czero).
Proof.
  intros Hk Hlen. unfold after. rewrite AllocateQubits_eq.
  destruct (Nat.eqb_spec k 0); [done|]. cbn [snd].
  unfold State, exp2. run.
  cbn [device_sv set_qubit_manager set_device_sv StateVector_new sv_num_qubits sv_data].
  rewrite Hlen, Nat.eqb_refl. cbn [negb fst].
  rewrite drop_ge; [by rewrite app_nil_r|].
  cbn [length]. rewrite length_replicate.
  pose proof (Nat.pow_nonzero 2 (GetNumQubits s + k)). lia.
Qed.

Lemma State_after_AllocateQubits_witness :
  fst (State [czero; czero; czero; czero] (after (AllocateQubits 1) sim_flipped))
  = Return (cone :: replicate (2 ^ (GetNumQubits sim_flipped + 1) - 1) czero).
Proof.
  apply (State_after_AllocateQubits 1 [czero; czero; czero; czero] sim_flipped).
  - lia.
  - reflexivity.
Defined.

(** ** Observables *)

Lemma isValidQubits_getDeviceWires (wires : list QubitIdType) (s : Simulator) :
  isValidQubits wires s = true ->
  exists dev_wires, getDeviceWires wires s = (Return dev_wires, s).
Proof.
  induction wires as [|w ws IH]; intros Hvalid.
  - by exists [].
  - unfold isValidQubits in *. cbn [forallb] in Hvalid.
    apply andb_prop in Hvalid as [Hw Hws].
    rewrite isValidQubitId_getDeviceId in Hw.
    destruct (QubitManager.getDeviceId w (qubit_manager s)) as [d|] eqn:Hid;
      [|discriminate].
    destruct (IH Hws) as [ds Hds].
    exists (d :: ds). cbn [getDeviceWires]. run. by rewrite Hid, Hds.
Qed.

(** X18: the outcomes of [Observable], case by case.  More wires than qubits:
    "Invalid number of wires"; an id that is not allocated: "Invalid given
    wires"; in both cases nothing is registered.  Otherwise the wire
    translation cannot fail: the observable is registered on the device
    wires (with the matrix for [ObsId::Hermitian], without it for a named
    observable), nothing else changes, and the key that is returned is one
    [Expval] and [Var] accept. *)
Theorem Observable_outcomes (id : ObsId.t) (matrix : list complex)
    (wires : list QubitIdType) (s : Simulator) :
  if GetNumQubits s <? length wires
  then Observable id matrix wires s = (Throw "Invalid number of wires", s)
  else if isValidQubits wires s
  then exists dev_wires key m,
      getDeviceWires wires s = (Return dev_wires, s)
      /\ Observable id matrix wires s = (Return key, set_obs_manager m s)
      /\ ObsManager.getObservable key m
         = Return (if ObsId.eqb id ObsId.Hermitian
                   then ObsManager.HermitianObs matrix dev_wires
                   else ObsManager.NamedObs id dev_wires)
      /\ ObsManager.isValidObservables [key] m = true
  else Observable id matrix wires s = (Throw "Invalid given wires", s).
Proof.
  unfold Observable. run.
  destruct (GetNumQubits s <? length wires); [reflexivity|].
  destruct (isValidQubits wires s) eqn:Hvalid; cbn [negb]; [|reflexivity].
  destruct (isValidQubits_getDeviceWires wires s Hvalid) as [dev_wires Hdev].
  rewrite Hdev. exists dev_wires.
  unfold ObsManager.createHermitianObs, ObsManager.createNamedObs, ObsManager.intern.
  destruct (ObsId.eqb id ObsId.Hermitian).
  - eexists _, _. split; [reflexivity|]. split; [reflexivity|].
    unfold ObsManager.getObservable, ObsManager.isValidObservables.
    unfold ObsManager.t, ObsIdType in *.
    rewrite lookup_app_r, Nat.sub_diag by lia. split; [reflexivity|].
    cbn [forallb]. rewrite length_app. cbn [length].
    rewrite andb_true_r. apply Nat.ltb_lt. lia.
  - eexists _, _. split; [reflexivity|]. split; [reflexivity|].
    unfold ObsManager.getObservable, ObsManager.isValidObservables.
    unfold ObsManager.t, ObsIdType in *.
    rewrite lookup_app_r, Nat.sub_diag by lia. split; [reflexivity|].
    cbn [forallb]. rewrite length_app. cbn [length].
    rewrite andb_true_r. apply Nat.ltb_lt. lia.
Qed.

(** ** After a release of all qubits *)

(** X19: after [ReleaseAllQubits] there is no qubit left to name: with at
    least one wire, [Observable], [PartialProbs], [PartialSample],
    [PartialCounts] and [Measure] all throw "Invalid number of wires" and
    leave the simulator as it is. *)
Theorem no_wire_after_ReleaseAllQubits (E : Engine) (s : Simulator)
    (wires : list QubitIdType) :
  length wires <> 0 ->
  let s0 := after ReleaseAllQubits s in
  (forall id matrix,
      Observable id matrix wires s0 = (Throw "Invalid number of wires", s0))
  /\ (forall probs,
         PartialProbs E probs wires s0 = (Throw "Invalid number of wires", s0))
  /\ (forall samples shots,
         PartialSample E samples wires shots s0 = (Throw "Invalid number of wires", s0))
  /\ (forall eigvals counts shots,
         PartialCounts E eigvals counts wires shots s0
         = (Throw "Invalid number of wires", s0))
  /\ (forall draw wire,
         Measure E draw wire s0 = (Throw "Invalid number of wires", s0)).
Proof.
  intros Hw. cbv zeta.
  assert (Hn : GetNumQubits (after ReleaseAllQubits s) = 0) by reflexivity.
  assert (Hlt : (GetNumQubits (after ReleaseAllQubits s) <? length wires) = true).
  { rewrite Hn. apply Nat.ltb_lt. lia. }
  split_and!.
  - intros id matrix. unfold Observable. run. by rewrite Hlt.
  - intros probs. unfold PartialProbs. run. by rewrite Hlt.
  - intros samples shots. unfold PartialSample. run. by rewrite Hlt.
  - intros eigvals counts shots. unfold PartialCounts. run. by rewrite Hlt.
  - intros draw wire.
    apply Measure_Throw with (after ReleaseAllQubits s).
    unfold PartialProbs. run. cbn [length]. by rewrite Hn.
Qed.

Lemma no_wire_after_ReleaseAllQubits_witness :
  Measure scripted_plain 0.5%float 0%Z (after ReleaseAllQubits sim_two_qubits)
  = (Throw "Invalid number of wires", after ReleaseAllQubits sim_two_qubits).
Proof.
  destruct (no_wire_after_ReleaseAllQubits scripted_plain sim_two_qubits [0%Z])
    as (_ & _ & _ & _ & H).
  - simpl. lia.
  - apply H.
Defined.

Lemma NamedOperation_applies_witness :
  NamedOperation scripted_plain "RX" [0.5%float] [0%Z] false sim_recording
  = (Return tt,
     if tape_recording sim_recording
     then set_cache_manager
            (CacheManager.addOperation "RX" [0.5%float] [0] false
                                       (cache_manager sim_recording))
            (set_device_sv (rev_amplitudes (device_sv sim_recording)) sim_recording)
     else set_device_sv (rev_amplitudes (device_sv sim_recording)) sim_recording).
Proof.
  apply (NamedOperation_applies scripted_plain "RX" [0.5%float] [0%Z] false
           sim_recording (1, 1) [0] (rev_amplitudes (device_sv sim_recording))).
  - reflexivity.
  - simpl. lia.
  - reflexivity.
  - vm_compute. reflexivity.
  - reflexivity.
Defined.
